(** * ecp-page: the document lookup front-end ([app/__init__.py])

    A shallow embedding of the request handler [get_doc], of its helpers
    [get_user_language] and [get_error_messages], and of the error handler
    [handle_custom_error], with the properties of the request/response
    mapping contract proved about them.

    Conventions.
    - A Python [str] is the Rocq [string] of its UTF-8 encoding (this file is
      UTF-8, so the literals below are the source's literals).  Operations
      that count characters ([s[:2]], iteration over a [str]) go through
      [str_chars], which cuts a string at UTF-8 character boundaries.
    - Dictionaries that are only looked up ([messages], the request's
      [args] and [headers]) are [gmap]s.  Dictionaries that the program
      builds or iterates over (the parsed JSON payload, the template
      context [data]) keep Python's insertion order: they are association
      lists with Python's get / set-item operations.
    - An exception is a value of [exn]; code that can raise returns
      [res A].
    - What the process finds when it starts is a parameter of the run: the
      base URL read from the environment, and [sys.stdout], to which the
      view's [print] writes. *)

From Stdlib Require Import ZArith Ascii String List Lia.
From stdpp Require Import base option list gmap strings.

Local Open Scope Z_scope.

(** ** Exceptions and results *)

(** The keys of the program's dictionaries: strings, and the integer
    indices of [approvement_data]. *)
Inductive key :=
| KStr (s : string)
| KInt (z : Z).

(** [CustomError] is the program's own exception class.  [ConnectionError]
    is [requests.ConnectionError] (with its subclasses), the one exception
    the handler catches; [RequestException] stands for every other exception
    of the outbound call.  The remaining ones are the built-in exceptions
    that subscripts, attribute accesses, [print] and [request.json()] can
    raise, which nothing in the program catches. *)
Inductive exn :=
| CustomError (status_code : Z) (message : string) (lang : string) (error_code : Z)
| KeyError (k : key)
| TypeError
| AttributeError
| IndexError
| UnicodeEncodeError
| ConnectionError
| RequestException
| JSONDecodeError.

Inductive res (A : Type) :=
| Ok (a : A)
| Raise (e : exn).
Arguments Ok {A} a.
Arguments Raise {A} e.

#[global] Instance res_ret : MRet res := @Ok.
#[global] Instance res_bind : MBind res := fun A B f m =>
  match m with
  | Ok a => f a
  | Raise e => Raise e
  end.
#[global] Instance res_fmap : FMap res := fun A B f m =>
  match m with
  | Ok a => Ok (f a)
  | Raise e => Raise e
  end.

(** [d[k]] on a lookup table: the entry, or [KeyError]. *)
Definition subscript {K V} `{Lookup K V M} (mk : K -> key) (d : M) (k : K) : res V :=
  match d !! k with
  | Some v => Ok v
  | None => Raise (KeyError (mk k))
  end.

(** ** [get_error_messages] *)

Definition messages : gmap Z (gmap string string) :=
  {[ 400 := {[ "en" := "Invalid or missing query parameters: `type` and `ref` are required.";
               "ru" := "Некорректные или отсутствующие параметры запроса: `type` и `ref` обязательны." ]};
     404 := {[ "en" := "Document not found";
               "ru" := "Документ не найден" ]};
     409 := {[ "en" := "Document not signed";
               "ru" := "Документ не подписан" ]};
     500 := {[ "en" := "Service is unavailable";
               "ru" := "Сервис недоступен" ]} ]}.

(** [d.get(k, dflt)] *)
Definition dict_get_default {K V} `{Lookup K V M} (d : M) (k : K) (dflt : V) : V :=
  default dflt (d !! k).

Definition get_error_messages (error_code : Z) (lang : string) : res string :=
  if bool_decide (messages !! error_code = None) then
    table ← subscript KInt messages 500;
    mret (dict_get_default table lang "en")
  else
    table ← subscript KInt messages error_code;
    mret (dict_get_default table lang "en").

(** ** Python [str] operations *)

(** Bytes [0x80 .. 0xBF] continue a UTF-8 character. *)
Definition is_continuation (c : ascii) : bool :=
  let n := N_of_ascii c in (128 <=? n)%N && (n <? 192)%N.

Definition starts_with_continuation (s : string) : bool :=
  match s with
  | String d _ => is_continuation d
  | "" => false
  end.

(** The characters of a string, each as a one-character string: a byte is
    grouped with the continuation bytes that follow it. *)
Fixpoint str_chars (s : string) : list string :=
  match s with
  | "" => []
  | String c t =>
      if starts_with_continuation t then
        match str_chars t with
        | g :: gs => String c g :: gs
        | [] => [String c ""]
        end
      else String c "" :: str_chars t
  end.

Definition str_join (l : list string) : string := foldr String.append "" l.

(** [s[:n]] *)
Definition str_slice_to (n : nat) (s : string) : string :=
  str_join (take n (str_chars s)).

(** [s.split(sep)] for a one-byte separator. *)
Fixpoint str_split (sep : ascii) (s : string) : list string :=
  match s with
  | "" => [""]
  | String c t =>
      if Ascii.eqb c sep then "" :: str_split sep t
      else match str_split sep t with
           | h :: r => String c h :: r
           | [] => [String c ""]
           end
  end.

(** [l[i]] on a list, for a non-negative index. *)
Definition list_item {A} (l : list A) (i : nat) : res A :=
  match l !! i with
  | Some a => Ok a
  | None => Raise IndexError
  end.

(** ** The incoming request *)

(** [inc_req.args] and [inc_req.headers] as the handler reads them: through
    [get] only. *)
Record request := {
  args : gmap string string;
  headers : gmap string string
}.

Definition get_user_language (inc_req : request) : res string :=
  list_item (str_split "," (dict_get_default (headers inc_req) "Accept-Language" "en")) 0.

(** Line 137: [get_user_language()[:2]]. *)
Definition preferred_language (inc_req : request) : res string :=
  lang ← get_user_language inc_req;
  mret (str_slice_to 2 lang).

(** ** [urllib.parse.quote] and percent-decoding *)

(** [c in s] for a byte [c]. *)
Fixpoint str_mem (c : ascii) (s : string) : bool :=
  match s with
  | "" => false
  | String d t => Ascii.eqb c d || str_mem c t
  end.

(** [_ALWAYS_SAFE]: the unreserved characters, never quoted. *)
Definition always_safe : string :=
  "ABCDEFGHIJKLMNOPQRSTUVWXYZabcdefghijklmnopqrstuvwxyz0123456789_.-~".

Definition hex_digit (n : N) : ascii :=
  default "0"%char (String.get (N.to_nat n) "0123456789ABCDEF").

(** ['%{:02X}'.format(b)] *)
Definition format_02X (b : ascii) : string :=
  let n := N_of_ascii b in
  String "%" (String (hex_digit (n / 16)) (String (hex_digit (n mod 16)) "")).

(** [_Quoter(safe)]: a byte is kept when it is always safe or in [safe], and
    written as [%XX] otherwise. *)
Definition quoter (safe : string) (b : ascii) : string :=
  if str_mem b (always_safe +:+ safe) then String b "" else format_02X b.

Fixpoint quote_from_bytes (bs : string) (safe : string) : string :=
  match bs with
  | "" => ""
  | String b t => quoter safe b +:+ quote_from_bytes t safe
  end.

(** [quote(string)]: the string is encoded as UTF-8 and its bytes are
    quoted; the default of [safe] is ['/']. *)
Definition quote (s : string) : string := quote_from_bytes s "/".

(** The value of a hexadecimal digit of either case, and the byte that
    two of them name. *)
Fixpoint index_of (c : ascii) (s : string) : option N :=
  match s with
  | "" => None
  | String d t => if Ascii.eqb c d then Some 0%N else N.succ <$> index_of c t
  end.

Definition hex_value (c : ascii) : option N :=
  match index_of c "0123456789ABCDEF" with
  | Some n => Some n
  | None => index_of c "0123456789abcdef"
  end.

Definition hextobyte (h1 h2 : ascii) : option ascii :=
  hi ← hex_value h1;
  lo ← hex_value h2;
  Some (ascii_of_N (16 * hi + lo)).

(** Percent-decoding as the receiving side does it (and as
    [urllib.parse.unquote_to_bytes] does): every [%] followed by two
    hexadecimal digits is the byte they name, everything else is kept. *)
Fixpoint unquote_to_bytes (s : string) : string :=
  match s with
  | "" => ""
  | String c t =>
      if Ascii.eqb c "%" then
        match t with
        | String h1 (String h2 t') =>
            match hextobyte h1 h2 with
            | Some b => String b (unquote_to_bytes t')
            | None => String c (unquote_to_bytes t)
            end
        | _ => String c (unquote_to_bytes t)
        end
      else String c (unquote_to_bytes t)
  end.

(** [s.replace(a, b)] for one-byte [a] and [b]. *)
Fixpoint str_replace (a b : ascii) (s : string) : string :=
  match s with
  | "" => ""
  | String c t => String (if Ascii.eqb c a then b else c) (str_replace a b t)
  end.

(** Percent-decoding after [+] is read as a space, the form convention. *)
Definition unquote_plus (s : string) : string :=
  unquote_to_bytes (str_replace "+" " " s).

(** [s.partition(sep)], without the separator. *)
Fixpoint str_partition (sep : ascii) (s : string) : string * string :=
  match s with
  | "" => ("", "")
  | String c t =>
      if Ascii.eqb c sep then ("", t)
      else let '(name, rest) := str_partition sep t in (String c name, rest)
  end.

(** How the receiving side reads a query string (as
    [urllib.parse.parse_qsl] does): the pieces between [&], each cut at its
    first [=] into a name and a value, both decoded. *)
Definition parse_qsl (qs : string) : list (string * string) :=
  (λ name_value, let '(name, v) := str_partition "=" name_value in
                 (unquote_plus name, unquote_plus v)) <$> str_split "&" qs.

(** ** Python values and insertion-ordered dictionaries *)

#[global] Instance key_eq_dec : EqDecision key.
Proof. solve_decision. Defined.

(** What [json.loads] produces, and what the handler puts in the template
    context (whose only addition is integer dictionary keys).  A float is
    kept as its binary64 bit pattern: the program never looks inside. *)
#[local] Set Warnings "-register-all".
Inductive value :=
| VNone
| VBool (b : bool)
| VInt (z : Z)
| VFloat (bits : Z)
| VStr (s : string)
| VList (l : list value)
| VDict (d : list (key * value)).

Fixpoint dict_lookup {V} (k : key) (d : list (key * V)) : option V :=
  match d with
  | [] => None
  | (k', v) :: r => if decide (k = k') then Some v else dict_lookup k r
  end.

(** [d[k] = v]: the value of an existing key is replaced where it stands, a
    new key goes last. *)
Fixpoint dict_set {V} (k : key) (v : V) (d : list (key * V)) : list (key * V) :=
  match d with
  | [] => [(k, v)]
  | (k', v') :: r => if decide (k = k') then (k', v) :: r else (k', v') :: dict_set k v r
  end.

Definition dict_keys {V} (d : list (key * V)) : list key := d.*1.

(** [k in d] *)
Definition dict_contains {V} (k : key) (d : list (key * V)) : bool :=
  bool_decide (is_Some (dict_lookup k d)).

(** [v[k]] for a string [k]: only a dictionary can be subscripted by one. *)
Definition getitem (v : value) (k : string) : res value :=
  match v with
  | VDict d =>
      match dict_lookup (KStr k) d with
      | Some x => Ok x
      | None => Raise (KeyError (KStr k))
      end
  | _ => Raise TypeError
  end.

(** [v.get(k, dflt)] *)
Definition get_or (v : value) (k : string) (dflt : value) : res value :=
  match v with
  | VDict d => Ok (default dflt (dict_lookup (KStr k) d))
  | _ => Raise AttributeError
  end.

(** [v.items()] *)
Definition items (v : value) : res (list (key * value)) :=
  match v with
  | VDict d => Ok d
  | _ => Raise AttributeError
  end.

Definition key_value (k : key) : value :=
  match k with
  | KStr s => VStr s
  | KInt z => VInt z
  end.

(** What a [for] loop sees of [v]: the elements of a list, the keys of a
    dictionary, the characters of a string. *)
Definition iterate (v : value) : res (list value) :=
  match v with
  | VList l => Ok l
  | VDict d => Ok (key_value <$> dict_keys d)
  | VStr s => Ok (VStr <$> str_chars s)
  | _ => Raise TypeError
  end.

(** ** [print] and the standard output: line 160 *)

(** [print(key, value)] writes [str(key)], a space, [str(value)] and a
    newline to [sys.stdout], which encodes what it is given with the
    encoding and the error handler it got when the process started: a text
    that they cannot write raises [UnicodeEncodeError], the one exception
    of [print] on a stream that works.  The program's run depends on
    [sys.stdout] through this one question, and a [console] answers it:
    whether the texts of a key and of a value can be written. *)
Definition console : Type := key → value → bool.

Definition print (stdout : console) (k : key) (v : value) : res unit :=
  if stdout k v then Ok () else Raise UnicodeEncodeError.

(** The loop of lines 159-160 over [request_data.items()]. *)
Fixpoint print_loop (stdout : console) (entries : list (key * value)) : res unit :=
  match entries with
  | [] => Ok ()
  | (k, v) :: rest =>
      _ ← print stdout k v;
      print_loop stdout rest
  end.

(** [json.loads] also gives strings that hold a lone surrogate ([U+D800]
    to [U+DFFF], from an escape such as [\ud800]).  UTF-8 has no encoding
    for it; in a [string] it stands as the three bytes [ED], [A0..BF],
    [80..BF] that Python's [surrogatepass] handler writes.  [ED] is never a
    continuation byte, and a character below [U+D800] whose first byte it
    is continues with a byte below [A0]. *)
Fixpoint has_surrogate (s : string) : bool :=
  match s with
  | "" => false
  | String c t =>
      (N_of_ascii c =? 237)%N
      && match t with
         | String d _ => (160 <=? N_of_ascii d)%N && (N_of_ascii d <? 192)%N
         | "" => false
         end
      || has_surrogate t
  end.

(** A UTF-8 standard output with the [strict] handler, what Python 3 sets
    up under a UTF-8 locale.  It writes every text but one with a lone
    surrogate.  [str] of a string is the string; of [None], a boolean or a
    number it is ASCII; of a list or a dictionary it is their [repr], in
    which the surrogates of the strings inside are written as escapes. *)
Definition utf8_console : console := fun k v =>
  negb match k with
       | KStr s => has_surrogate s
       | KInt _ => false
       end
  && negb match v with
          | VStr s => has_surrogate s
          | _ => false
          end.

(** ** The response mapper: lines 157-209 of [get_doc] *)

(** [request_data[section][name]] *)
Definition field (request_data : value) (section name : string) : res value :=
  sec ← getitem request_data section;
  getitem sec name.

Definition document_data (request_data : value) : res value :=
  document_name ← field request_data "ДанныеДокумента" "Наименование";
  document_number ← field request_data "ДанныеДокумента" "НомерДокумента";
  registration_date ← field request_data "ДанныеДокумента" "ДатаРегистрации";
  registered_by ← field request_data "ДанныеДокумента" "Зарегистрировал";
  prepared_by ← (sec ← getitem request_data "ДанныеДокумента";
                 get_or sec "Подготовил" (VStr ""));
  mret (VDict [(KStr "document_name", document_name);
               (KStr "document_number", document_number);
               (KStr "registration_date", registration_date);
               (KStr "registered_by", registered_by);
               (KStr "prepared_by", prepared_by)]).

Definition sign_data (request_data : value) : res value :=
  open_key ← field request_data "ДанныеПодписи" "ОткрытыйКлюч";
  signed_by ← field request_data "ДанныеПодписи" "УстановившийПодпись";
  sign_date ← field request_data "ДанныеПодписи" "ДатаПодписи";
  start_time ← field request_data "ДанныеПодписи" "ДатаНачала";
  end_time ← field request_data "ДанныеПодписи" "ДатаОкончания";
  provider ← field request_data "ДанныеПодписи" "КемВыдан";
  receiver ← field request_data "ДанныеПодписи" "КомуВыдан";
  mret (VDict [(KStr "signed_by", signed_by);
               (KStr "sign_date", sign_date);
               (KStr "start_time", start_time);
               (KStr "end_time", end_time);
               (KStr "provider", provider);
               (KStr "receiver", receiver);
               (KStr "open_key", open_key)]).

Definition cor_file_data (file_data : value) : res value :=
  name ← getitem file_data "ПрикреплённыйФайл";
  sign_date ← getitem file_data "ДатаПодписи";
  signed_by ← getitem file_data "УстановившийПодпись";
  attached_by ← getitem file_data "ПрикрепившийФайл";
  mret (VDict [(KStr "name", name);
               (KStr "sign_date", sign_date);
               (KStr "signed_by", signed_by);
               (KStr "attached_by", attached_by)]).

(** The loop of lines 187-194, on the entries still to visit and the
    dictionary [data['attached_files']] built so far. *)
Fixpoint attached_files_loop (entries : list (key * value)) (acc : list (key * value))
  : res (list (key * value)) :=
  match entries with
  | [] => Ok acc
  | (file, file_data) :: rest =>
      cor ← cor_file_data file_data;
      attached_files_loop rest (dict_set file cor acc)
  end.

Definition attached_files (request_data : value) : res value :=
  sec ← getitem request_data "ДанныеФайлов";
  entries ← items sec;
  VDict <$> attached_files_loop entries [].

Definition approvement_entry (person : value) : res value :=
  role ← getitem person "Должность";
  name ← getitem person "Исполнитель";
  sign_date ← getitem person "ДатаИсполнения";
  approvement_mark ← getitem person "РезультатСогласования";
  comment ← getitem person "РезультатВыполнения";
  mret (VDict [(KStr "role", role);
               (KStr "name", name);
               (KStr "sign_date", sign_date);
               (KStr "approvement_mark", approvement_mark);
               (KStr "comment", comment)]).

(** The loop of lines 197-204; [index] is [enumerate]'s counter. *)
Fixpoint approvement_loop (index : Z) (persons : list value) (acc : list (key * value))
  : res (list (key * value)) :=
  match persons with
  | [] => Ok acc
  | person :: rest =>
      entry ← approvement_entry person;
      approvement_loop (index + 1) rest (dict_set (KInt index) entry acc)
  end.

Definition approvement_data (request_data : value) : res value :=
  sec ← getitem request_data "ДанныеВизСогласования";
  persons ← iterate sec;
  VDict <$> approvement_loop 0 persons [].

Definition qr_data (request_data : value) : res value :=
  qr_binary ← field request_data "ДанныеQR" "ДвоичныеДанныеQRКода";
  qr_link ← field request_data "ДанныеQR" "ОригиналСсылки";
  mret (VDict [(KStr "qr_binary", qr_binary); (KStr "qr_link", qr_link)]).

(** [if section in request_data: data[name] = build(request_data)] *)
Definition add_section (request_data : list (key * value)) (section name : string)
    (build : res value) (data : list (key * value)) : res (list (key * value)) :=
  if dict_contains (KStr section) request_data then
    v ← build;
    mret (dict_set (KStr name) v data)
  else mret data.

(** From the parsed payload to the template context [data].  The loop of
    line 159 needs [request_data.items()], so anything but a dictionary
    raises there, and it prints every key and value before any section is
    read; the inner dictionaries of lines 186 and 196 are filled before
    they are stored, which no reader of [data] can tell apart. *)
Definition build_data (stdout : console) (request_data : value)
  : res (list (key * value)) :=
  sections ← items request_data;
  _ ← print_loop stdout sections;
  let data := [] in
  dd ← document_data request_data;
  let data := dict_set (KStr "document_data") dd data in
  data ← add_section sections "ДанныеПодписи" "sign_data" (sign_data request_data) data;
  data ← add_section sections "ДанныеФайлов" "attached_files" (attached_files request_data) data;
  data ← add_section sections "ДанныеВизСогласования" "approvement_data"
           (approvement_data request_data) data;
  add_section sections "ДанныеQR" "qr_data" (qr_data request_data) data.

(** ** The handler [get_doc] and the error handler *)

(** What a view returns: [render_template(template, **context), status].
    Rendering itself is the template engine's business; the response is
    kept as the template's name and its context. *)
Record response := {
  template : string;
  context : list (key * value);
  status : Z
}.

(** What the outbound call [out_req('GET', url, ...)] can do: raise, or
    return a response with its [status_code] and what its [json()] gives. *)
Inductive reply :=
| Raises (e : exn)
| Response (status_code : Z) (json : res value).

(** A view's run: it finishes, or it asks for one outbound request and
    finishes from the reply. *)
Inductive prog (A : Type) :=
| Return (r : res A)
| OutReq (method url : string) (k : reply -> res A).
Arguments Return {A} r.
Arguments OutReq {A} method url k.

(** The outbound requests of a run. *)
Definition calls {A} (p : prog A) : list string :=
  match p with
  | Return _ => []
  | OutReq _ url _ => [url]
  end.

(** A run against an upstream that answers [out_req url] to [url]. *)
Definition run {A} (out_req : string -> reply) (p : prog A) : res A :=
  match p with
  | Return r => r
  | OutReq _ url k => k (out_req url)
  end.

(** [not v] for what [args.get] returns: [None] and [''] are falsy. *)
Definition falsy (v : option string) : bool :=
  match v with
  | None => true
  | Some s => bool_decide (s = "")
  end.

Section Handler.

(** [req_base_url], read from the environment when the process starts. *)
Variable req_base_url : string.

(** [sys.stdout], as the process finds it when it starts. *)
Variable stdout : console.

(** Lines 153-210: from the upstream's response on, [status_code] and
    [json] being the response's [status_code] and what its [json()] gives. *)
Definition from_response (preferred_language : string) (status_code : Z)
    (json : res value) : res response :=
  if bool_decide (200 ≠ status_code) then
    message ← get_error_messages status_code preferred_language;
    Raise (CustomError status_code message preferred_language status_code)
  else
    (* the view's own [status_code] keeps its initial value, 200 *)
    let status_code := 200 in
    request_data ← json;
    data ← build_data stdout request_data;
    mret {| template := "main_page.html"; context := data; status := status_code |}.

(** Lines 146-152: the [try] around the outbound call. *)
Definition from_reply (preferred_language : string) (r : reply) : res response :=
  match r with
  | Raises ConnectionError =>
      let status_code := 500 in
      message ← get_error_messages status_code preferred_language;
      Raise (CustomError status_code message preferred_language status_code)
  | Raises e => Raise e
  | Response status_code json => from_response preferred_language status_code json
  end.

Definition get_doc (inc_req : request) : prog response :=
  let doc_type := args inc_req !! "type" in
  let ref_type := args inc_req !! "ref" in
  match preferred_language inc_req with
  | Raise e => Return (Raise e)
  | Ok preferred_language =>
      if falsy doc_type || falsy ref_type then
        let status_code := 400 in
        Return (message ← get_error_messages status_code preferred_language;
                Raise (CustomError status_code message preferred_language status_code))
      else
        (* both are strings here, and not empty *)
        let cor_doc_type := quote (default "" doc_type) in
        let cor_ref_type := quote (default "" ref_type) in
        let full_req_url :=
          req_base_url +:+ "?type=" +:+ cor_doc_type +:+ "&ref=" +:+ cor_ref_type in
        OutReq "GET" full_req_url (from_reply preferred_language)
  end.

(** [handle_custom_error], registered for [CustomError]. *)
Definition handle_custom_error (status_code : Z) (message lang : string) (error_code : Z)
  : response :=
  {| template := "error_page.html";
     context := [(KStr "message", VStr message);
                 (KStr "lang", VStr lang);
                 (KStr "error_code", VInt error_code)];
     status := status_code |}.

(** The application on one request: the view, then the error handler for
    the exception it is registered for; any other exception stays
    unhandled. *)
Definition serve (out_req : string -> reply) (inc_req : request) : res response :=
  match run out_req (get_doc inc_req) with
  | Raise (CustomError status_code message lang error_code) =>
      Ok (handle_custom_error status_code message lang error_code)
  | r => r
  end.

End Handler.

(** ** The upstream credentials: lines 55-78 *)

(** [base64.b64encode], on the bits of the bytes (an [ascii] lists its bits
    from the least significant one): three bytes give four characters of
    six bits each, and a last group of one or two bytes is filled with
    zero bits and [=].  [b64_char] takes the six bits from the most
    significant one. *)
Definition b64_alphabet : string :=
  "ABCDEFGHIJKLMNOPQRSTUVWXYZabcdefghijklmnopqrstuvwxyz0123456789+/".

Definition b64_char (s5 s4 s3 s2 s1 s0 : bool) : ascii :=
  default "A"%char
    (String.get (N.to_nat (N_of_ascii (Ascii s0 s1 s2 s3 s4 s5 false false))) b64_alphabet).

Fixpoint b64encode (bs : string) : string :=
  match bs with
  | "" => ""
  | String (Ascii a0 a1 a2 a3 a4 a5 a6 a7) "" =>
      String (b64_char a7 a6 a5 a4 a3 a2)
        (String (b64_char a1 a0 false false false false) "==")
  | String (Ascii a0 a1 a2 a3 a4 a5 a6 a7) (String (Ascii b0 b1 b2 b3 b4 b5 b6 b7) "") =>
      String (b64_char a7 a6 a5 a4 a3 a2)
        (String (b64_char a1 a0 b7 b6 b5 b4)
           (String (b64_char b3 b2 b1 b0 false false) "="))
  | String (Ascii a0 a1 a2 a3 a4 a5 a6 a7)
      (String (Ascii b0 b1 b2 b3 b4 b5 b6 b7)
         (String (Ascii c0 c1 c2 c3 c4 c5 c6 c7) t)) =>
      String (b64_char a7 a6 a5 a4 a3 a2)
        (String (b64_char a1 a0 b7 b6 b5 b4)
           (String (b64_char b3 b2 b1 b0 c7 c6)
              (String (b64_char c5 c4 c3 c2 c1 c0) (b64encode t))))
  end.

(** The six bits that a character of the alphabet stands for, from the
    most significant one. *)
Definition b64_bits (c : ascii) : option (bool * bool * bool * bool * bool * bool) :=
  n ← index_of c b64_alphabet;
  match ascii_of_N n with
  | Ascii s0 s1 s2 s3 s4 s5 _ _ => Some (s5, s4, s3, s2, s1, s0)
  end.

(** Decoding as the receiving side does it (RFC 4648): four characters
    give three bytes; padding is accepted in the last group only, where the
    filling bits are dropped.  Anything else is refused. *)
Fixpoint b64decode (s : string) : option string :=
  match s with
  | "" => Some ""
  | String c1 (String c2 (String c3 (String c4 t))) =>
      '(a7, a6, a5, a4, a3, a2) ← b64_bits c1;
      '(a1, a0, b7, b6, b5, b4) ← b64_bits c2;
      let a := Ascii a0 a1 a2 a3 a4 a5 a6 a7 in
      if Ascii.eqb c4 "=" then
        match t with
        | "" =>
            if Ascii.eqb c3 "=" then Some (String a "")
            else
              '(b3, b2, b1, b0, _, _) ← b64_bits c3;
              Some (String a (String (Ascii b0 b1 b2 b3 b4 b5 b6 b7) ""))
        | _ => None
        end
      else
        '(b3, b2, b1, b0, c7, c6) ← b64_bits c3;
        '(c5, c4', c3', c2', c1', c0) ← b64_bits c4;
        rest ← b64decode t;
        Some (String a
                (String (Ascii b0 b1 b2 b3 b4 b5 b6 b7)
                   (String (Ascii c0 c1' c2' c3' c4' c5 c6 c7) rest)))
  | _ => None
  end.

(** [f'{v}'] for what [os.getenv] returns: the value, or ['None'] for a
    variable that is not set. *)
Definition format_value (v : option string) : string := default "None" v.

(** The names computed from the environment when the module is loaded;
    [environ] is the process environment, [environ !! name] is
    [os.getenv(name)]. *)
Module ServiceCon.

Definition req_base_url (environ : gmap string string) : string :=
  format_value (environ !! "API_DOM") +:+ "/" +:+ format_value (environ !! "API_NAME").




End ServiceCon.

(** * The vocabulary of the statements *)

(** ** The message tables *)

(** The four entries of [messages], by name. *)
Definition table_400 : gmap string string :=
  {[ "en" := "Invalid or missing query parameters: `type` and `ref` are required.";
     "ru" := "Некорректные или отсутствующие параметры запроса: `type` и `ref` обязательны." ]}.
Definition table_404 : gmap string string :=
  {[ "en" := "Document not found"; "ru" := "Документ не найден" ]}.
Definition table_409 : gmap string string :=
  {[ "en" := "Document not signed"; "ru" := "Документ не подписан" ]}.
Definition table_500 : gmap string string :=
  {[ "en" := "Service is unavailable"; "ru" := "Сервис недоступен" ]}.

(** The table the lookup reads: the code's own, or the one of 500. *)
Definition table_of (error_code : Z) : gmap string string :=
  if decide (error_code = 400) then table_400
  else if decide (error_code = 404) then table_404
  else if decide (error_code = 409) then table_409
  else table_500.

Definition invalid_parameters_en : string :=
  "Invalid or missing query parameters: `type` and `ref` are required.".
Definition invalid_parameters_ru : string :=
  "Некорректные или отсутствующие параметры запроса: `type` и `ref` обязательны.".

(** ** Strings and requests *)

(** Strings of ASCII bytes: their characters are their bytes. *)
Fixpoint all_ascii (s : string) : bool :=
  match s with
  | "" => true
  | String c t => (N_of_ascii c <? 128)%N && all_ascii t
  end.

(** A valid request of a Russian reader, one of a French reader, and the
    latter without its [ref]. *)
Definition ru_request : request :=
  {| args := {[ "type" := "Invoice"; "ref" := "A/B" ]};
     headers := {[ "Accept-Language" := "ru-RU,en;q=0.9" ]} |}.

Definition fr_request : request :=
  {| args := {[ "type" := "Invoice"; "ref" := "123" ]};
     headers := {[ "Accept-Language" := "fr" ]} |}.

Definition fr_request_without_ref : request :=
  {| args := {[ "type" := "Invoice" ]};
     headers := {[ "Accept-Language" := "fr" ]} |}.

(** ** Payloads *)

(** A section is present when the payload is an object that has its key. *)
Definition section_present (payload : value) (section : string) : bool :=
  match payload with
  | VDict sections => dict_contains (KStr section) sections
  | _ => false
  end.

(** The upstream sections and the keys of [data] they are mapped to. *)
Definition section_names : list (string * string) :=
  [("ДанныеДокумента", "document_data");
   ("ДанныеПодписи", "sign_data");
   ("ДанныеФайлов", "attached_files");
   ("ДанныеВизСогласования", "approvement_data");
   ("ДанныеQR", "qr_data")].

(** What an optional section contributes to [data]. *)
Definition section_entry (payload : value) (section name : string) (build : res value)
  : list (key * value) :=
  if section_present payload section then
    match build with
    | Ok v => [(KStr name, v)]
    | Raise _ => []
    end
  else [].

(** The fields that each section is subscripted with. *)
Definition document_fields : list string :=
  ["Наименование"; "НомерДокумента"; "ДатаРегистрации"; "Зарегистрировал"].
Definition sign_fields : list string :=
  ["ОткрытыйКлюч"; "УстановившийПодпись"; "ДатаПодписи"; "ДатаНачала";
   "ДатаОкончания"; "КемВыдан"; "КомуВыдан"].
Definition file_fields : list string :=
  ["ПрикреплённыйФайл"; "ДатаПодписи"; "УстановившийПодпись"; "ПрикрепившийФайл"].
Definition approvement_fields : list string :=
  ["Должность"; "Исполнитель"; "ДатаИсполнения"; "РезультатСогласования";
   "РезультатВыполнения"].
Definition qr_fields : list string :=
  ["ДвоичныеДанныеQRКода"; "ОригиналСсылки"].

(** The five fields of [document_data]. *)
Definition document_record (name number date registrar preparer : value) : value :=
  VDict [(KStr "document_name", name);
         (KStr "document_number", number);
         (KStr "registration_date", date);
         (KStr "registered_by", registrar);
         (KStr "prepared_by", preparer)].

(** Payloads to evaluate the mapper on: a document section without any
    field, a document section alone, and one with two approvals, with the
    [data] that the last two are mapped to. *)
Definition document_section : list (key * value) :=
  [(KStr "Наименование", VStr "Invoice");
   (KStr "НомерДокумента", VStr "123");
   (KStr "ДатаРегистрации", VStr "2024-05-17");
   (KStr "Зарегистрировал", VStr "Registrar")].

Definition empty_document : value :=
  VDict [(KStr "ДанныеДокумента", VDict [])].

Definition only_document : value :=
  VDict [(KStr "ДанныеДокумента", VDict document_section)].

Definition only_document_data : list (key * value) :=
  [(KStr "document_data",
    document_record (VStr "Invoice") (VStr "123") (VStr "2024-05-17") (VStr "Registrar")
      (VStr ""))].

Definition approver (role name : string) : value :=
  VDict [(KStr "Должность", VStr role);
         (KStr "Исполнитель", VStr name);
         (KStr "ДатаИсполнения", VStr "2024-05-18");
         (KStr "РезультатСогласования", VStr "approved");
         (KStr "РезультатВыполнения", VStr "")].

Definition approved_document : value :=
  VDict [(KStr "ДанныеДокумента", VDict document_section);
         (KStr "ДанныеВизСогласования",
          VList [approver "Director" "A"; approver "Accountant" "B"])].

Definition approved_entry (role name : string) : value :=
  VDict [(KStr "role", VStr role);
         (KStr "name", VStr name);
         (KStr "sign_date", VStr "2024-05-18");
         (KStr "approvement_mark", VStr "approved");
         (KStr "comment", VStr "")].

Definition approved_document_data : list (key * value) :=
  only_document_data ++
  [(KStr "approvement_data",
    VDict [(KInt 0, approved_entry "Director" "A");
           (KInt 1, approved_entry "Accountant" "B")])].

(** ** Further vocabulary *)

(** The value that [headers.get('Accept-Language', 'en')] reads. *)
Definition accept_language (inc_req : request) : string :=
  dict_get_default (headers inc_req) "Accept-Language" "en".

(** The texts of [messages], and the string that the locale lookup
    defaults to. *)
Definition message_texts : list string :=
  [invalid_parameters_en; invalid_parameters_ru;
   "Document not found"; "Документ не найден";
   "Document not signed"; "Документ не подписан";
   "Service is unavailable"; "Сервис недоступен";
   "en"].


(** The bytes that [quote] keeps, and the number of the others in a
    string. *)
Definition is_safe (b : ascii) : bool := str_mem b (always_safe +:+ "/").

Fixpoint unsafe_count (s : string) : nat :=
  match s with
  | "" => 0
  | String b t => (if is_safe b then 0 else 1) + unsafe_count t
  end.

(** The exceptions of subscripts, attribute accesses and iteration. *)
Definition mapper_error (e : exn) : Prop :=
  match e with
  | KeyError _ | TypeError | AttributeError => True
  | _ => False
  end.

(** A dictionary all of whose items the standard output can write, and
    the exception of [print] on a payload that has an item it cannot. *)
Definition printable (stdout : console) (d : list (key * value)) : bool :=
  forallb (λ item, stdout item.1 item.2) d.

Definition print_error (stdout : console) (payload : value) (e : exn) : Prop :=
  e = UnicodeEncodeError ∧ ∃ d, payload = VDict d ∧ printable stdout d = false.

Definition raises_only {A} (r : res A) : Prop :=
  ∀ e, r = Raise e → mapper_error e.

Definition is_dict (v : value) : bool :=
  match v with
  | VDict _ => true
  | _ => false
  end.

Definition is_custom_error (e : exn) : bool :=
  match e with
  | CustomError _ _ _ _ => true
  | _ => false
  end.

(** A reply of the [requests] library: whatever it raises, from the call
    or from [json()], is not the application's [CustomError]. *)
Definition library_reply (r : reply) : Prop :=
  match r with
  | Raises e => is_custom_error e = false
  | Response _ (Raise e) => is_custom_error e = false
  | Response _ (Ok _) => True
  end.

(** The records that the mapper builds for a signature section, a file
    entry and a QR section. *)
Definition sign_record (signed_by sign_date start_time end_time provider receiver open_key
    : value) : value :=
  VDict [(KStr "signed_by", signed_by);
         (KStr "sign_date", sign_date);
         (KStr "start_time", start_time);
         (KStr "end_time", end_time);
         (KStr "provider", provider);
         (KStr "receiver", receiver);
         (KStr "open_key", open_key)].

Definition file_record (name sign_date signed_by attached_by : value) : value :=
  VDict [(KStr "name", name);
         (KStr "sign_date", sign_date);
         (KStr "signed_by", signed_by);
         (KStr "attached_by", attached_by)].

Definition qr_record (qr_binary qr_link : value) : value :=
  VDict [(KStr "qr_binary", qr_binary); (KStr "qr_link", qr_link)].

(** The main page for a template context. *)
Definition main_page (data : list (key * value)) : response :=
  {| template := "main_page.html"; context := data; status := 200 |}.

(** Payloads with a signature and a QR section, and with two files, and
    the [data] they are mapped to. *)
Definition signed_document : value :=
  VDict [(KStr "ДанныеДокумента", VDict document_section);
         (KStr "ДанныеПодписи",
          VDict [(KStr "УстановившийПодпись", VStr "Signer");
                 (KStr "ДатаПодписи", VStr "2024-05-19");
                 (KStr "ДатаНачала", VStr "2024-01-01");
                 (KStr "ДатаОкончания", VStr "2025-01-01");
                 (KStr "КемВыдан", VStr "CA");
                 (KStr "КомуВыдан", VStr "Signer");
                 (KStr "ОткрытыйКлюч", VStr "30 82 01 0a")]);
         (KStr "ДанныеQR",
          VDict [(KStr "ДвоичныеДанныеQRКода", VStr "iVBORw0KGgo=");
                 (KStr "ОригиналСсылки", VStr "https://dms/doc/123")])].

Definition signed_document_data : list (key * value) :=
  only_document_data ++
  [(KStr "sign_data",
    sign_record (VStr "Signer") (VStr "2024-05-19") (VStr "2024-01-01") (VStr "2025-01-01")
      (VStr "CA") (VStr "Signer") (VStr "30 82 01 0a"));
   (KStr "qr_data", qr_record (VStr "iVBORw0KGgo=") (VStr "https://dms/doc/123"))].

Definition attachment (name : string) : value :=
  VDict [(KStr "ПрикреплённыйФайл", VStr name);
         (KStr "ДатаПодписи", VStr "2024-05-19");
         (KStr "УстановившийПодпись", VStr "Signer");
         (KStr "ПрикрепившийФайл", VStr "Clerk")].

Definition document_files : list (key * value) :=
  [(KStr "f-2", attachment "scan.pdf"); (KStr "f-1", attachment "annex.pdf")].

Definition document_with_files : value :=
  VDict [(KStr "ДанныеДокумента", VDict document_section);
         (KStr "ДанныеФайлов", VDict document_files)].

Definition attached (name : string) : value :=
  file_record (VStr name) (VStr "2024-05-19") (VStr "Signer") (VStr "Clerk").

Definition document_with_files_data : list (key * value) :=
  only_document_data ++
  [(KStr "attached_files",
    VDict [(KStr "f-2", attached "scan.pdf"); (KStr "f-1", attached "annex.pdf")])].

(** A payload whose signature section is [null], one whose approval
    section is an empty object, and the sections of [signed_document] in
    another order with a key that the mapper does not know. *)
Definition document_with_null_signature : value :=
  VDict [(KStr "ДанныеДокумента", VDict document_section);
         (KStr "ДанныеПодписи", VNone)].

Definition document_with_empty_approvals : value :=
  VDict [(KStr "ДанныеДокумента", VDict document_section);
         (KStr "ДанныеВизСогласования", VDict [])].

Definition sections_of (v : value) : list (key * value) :=
  match v with
  | VDict d => d
  | _ => []
  end.

Definition shuffled_sections : list (key * value) :=
  (KStr "Версия", VInt 2) :: reverse (sections_of signed_document).

(** A payload with all five sections, and the [data] it is mapped to. *)
Definition complete_document : value :=
  VDict (sections_of signed_document ++
         [(KStr "ДанныеФайлов", VDict document_files);
          (KStr "ДанныеВизСогласования",
           VList [approver "Director" "A"; approver "Accountant" "B"])]).

Definition complete_document_data : list (key * value) :=
  only_document_data ++
  [(KStr "sign_data",
    sign_record (VStr "Signer") (VStr "2024-05-19") (VStr "2024-01-01") (VStr "2025-01-01")
      (VStr "CA") (VStr "Signer") (VStr "30 82 01 0a"));
   (KStr "attached_files",
    VDict [(KStr "f-2", attached "scan.pdf"); (KStr "f-1", attached "annex.pdf")]);
   (KStr "approvement_data",
    VDict [(KInt 0, approved_entry "Director" "A");
           (KInt 1, approved_entry "Accountant" "B")]);
   (KStr "qr_data", qr_record (VStr "iVBORw0KGgo=") (VStr "https://dms/doc/123"))].

(** The character [U+D800] alone, and the complete payload with one more
    key, whose value is that character. *)
Definition lone_surrogate : string :=
  String "237" (String "160" (String "128" "")).

Definition document_with_surrogate : value :=
  VDict (sections_of complete_document ++ [(KStr "Версия", VStr lone_surrogate)]).

(** * Properties *)

(** Membership in a list of literals, by evaluation. *)
Ltac decide_elem :=
  lazymatch goal with
  | |- _ ∈ _ => apply (bool_decide_unpack _); vm_compute; exact I
  | |- _ ∉ _ => apply (bool_decide_eq_false_1 _); vm_compute; reflexivity
  | |- _ ∈ _ → False => apply (bool_decide_eq_false_1 _); vm_compute; reflexivity
  end.

(** ** The message table *)

Lemma messages_lookup (c : Z) :
  messages !! c =
    if decide (c = 400) then Some table_400
    else if decide (c = 404) then Some table_404
    else if decide (c = 409) then Some table_409
    else if decide (c = 500) then Some table_500
    else None.
Proof.
  unfold messages.
  repeat (rewrite lookup_insert; case_decide; [subst; repeat case_decide; try lia; try reflexivity|]).
  rewrite lookup_singleton.
  repeat case_decide; subst; try lia; reflexivity.
Qed.

Lemma get_error_messages_eq (error_code : Z) (lang : string) :
  get_error_messages error_code lang = Ok (default "en" (table_of error_code !! lang)).
Proof.
  unfold get_error_messages, subscript, table_of, dict_get_default.
  rewrite !messages_lookup.
  repeat case_decide; subst; try lia; reflexivity.
Qed.

Lemma table_of_lookup (error_code : Z) (lang : string) :
  table_of error_code !! lang =
    if decide (lang = "en") then table_of error_code !! "en"
    else if decide (lang = "ru") then table_of error_code !! "ru"
    else None.
Proof.
  unfold table_of, table_400, table_404, table_409, table_500.
  repeat case_decide; subst; try reflexivity; try congruence;
    rewrite lookup_insert_ne by congruence;
    rewrite lookup_singleton_ne by congruence; reflexivity.
Qed.

Lemma get_error_messages_unsupported (error_code : Z) (lang : string) :
  lang ≠ "en" → lang ≠ "ru" → get_error_messages error_code lang = Ok "en".
Proof.
  intros Hen Hru. rewrite get_error_messages_eq, table_of_lookup.
  repeat case_decide; try congruence. reflexivity.
Qed.

(** C10.  The error-message lookup is total: for every integer code and
    every locale it returns a string, never raising.  A code outside the
    table is sent to the table of 500 before the locale is looked up (so it
    gets what 500 gets), and the locale lookup has a default, ['en']. *)
Theorem get_error_messages_total (error_code : Z) (lang : string) :
  ∃ (table : gmap string string) (message : string),
    (messages !! error_code = Some table ∨
     (messages !! error_code = None ∧ messages !! 500 = Some table)) ∧
    get_error_messages error_code lang = Ok message ∧
    message = default "en" (table !! lang) ∧
    (error_code ∉ [400; 404; 409; 500] →
       messages !! error_code = None ∧
       get_error_messages error_code lang = get_error_messages 500 lang).
Proof.
  exists (table_of error_code), (default "en" (table_of error_code !! lang)).
  split; [|split; [apply get_error_messages_eq|split; [reflexivity|]]].
  - rewrite !messages_lookup. unfold table_of.
    repeat case_decide; subst; try lia; auto.
  - rewrite !elem_of_cons, elem_of_nil. intros Hout.
    rewrite messages_lookup, !get_error_messages_eq. unfold table_of.
    repeat case_decide; subst; try lia; intuition.
Qed.

Lemma get_error_messages_total_witness :
  get_error_messages 418 "ru" = get_error_messages 500 "ru".
Proof.
  destruct (get_error_messages_total 418 "ru") as (table & message & _ & _ & _ & H).
  apply H. decide_elem.
Defined.

(** C1 (the code departs from it).  At code 404 and the unsupported locale
    ['fr'] the lookup returns the string ['en'], the default handed to
    [dict.get], and not the English text of 404, which it returns for the
    locale ['en']. *)
Theorem get_error_messages_fr_404 :
  get_error_messages 404 "fr" = Ok "en" ∧
  get_error_messages 404 "en" = Ok "Document not found" ∧
  get_error_messages 404 "fr" ≠ get_error_messages 404 "en".
Proof. split; [|split]; [vm_compute; reflexivity..|vm_compute; discriminate]. Qed.

(** ** Locale resolution *)

Lemma str_split_not_nil (sep : ascii) (s : string) : str_split sep s ≠ [].
Proof.
  induction s as [|c t IH]; simpl; [discriminate|].
  destruct (Ascii.eqb c sep); [discriminate|].
  destruct (str_split sep t); discriminate.
Qed.

Lemma str_split_no_sep (sep : ascii) (s : string) :
  str_mem sep s = false → str_split sep s = [s].
Proof.
  induction s as [|c t IH]; simpl; [reflexivity|].
  rewrite Ascii.eqb_sym. intros [Hc Ht]%orb_false_elim.
  rewrite Hc, (IH Ht). reflexivity.
Qed.

Lemma str_split_first (sep : ascii) (seg rest : string) :
  str_mem sep seg = false →
  str_split sep (seg +:+ String sep rest) = seg :: str_split sep rest.
Proof.
  induction seg as [|c t IH]; simpl.
  - intros _. rewrite Ascii.eqb_refl. reflexivity.
  - rewrite Ascii.eqb_sym. intros [Hc Ht]%orb_false_elim.
    rewrite Hc, (IH Ht). reflexivity.
Qed.

Lemma get_user_language_total (inc_req : request) :
  ∃ lang, get_user_language inc_req = Ok lang.
Proof.
  unfold get_user_language, list_item.
  destruct (str_split _ _) as [|lang segs] eqn:E; [|eauto].
  destruct (str_split_not_nil _ _ E).
Qed.

Lemma preferred_language_total (inc_req : request) :
  ∃ lang, preferred_language inc_req = Ok lang.
Proof.
  unfold preferred_language.
  destruct (get_user_language_total inc_req) as [lang ->]. simpl. eauto.
Qed.

Lemma str_chars_ascii (s : string) :
  all_ascii s = true →
  str_chars s = (λ c, String c "") <$> list_ascii_of_string s.
Proof.
  induction s as [|c t IH]; simpl; [reflexivity|].
  intros [_ Ht]%andb_true_iff. rewrite (IH Ht).
  destruct t as [|d t']; simpl; [reflexivity|].
  simpl in Ht. apply andb_true_iff in Ht as [Hd _].
  unfold is_continuation. apply N.ltb_lt in Hd.
  destruct (N.leb_spec 128 (N_of_ascii d)); [lia|reflexivity].
Qed.

Lemma str_slice_to_ascii (n : nat) (s : string) :
  all_ascii s = true → str_slice_to n s = substring 0 n s.
Proof.
  intros Hs. unfold str_slice_to. rewrite (str_chars_ascii s Hs). clear Hs.
  revert n. induction s as [|c t IH]; intros [|n]; simpl; try reflexivity.
  rewrite IH. reflexivity.
Qed.

(** C9.  The locale of a request is the first two characters of the first
    comma-separated segment of its [Accept-Language] header, whether the
    header is one segment or has a comma after the first; it is [en] when
    the header is absent; [ru-RU,en;q=0.9] resolves to [ru].  (The segment
    is cut at character boundaries; on an ASCII segment these are its first
    two bytes.) *)
Theorem locale_resolution (inc_req : request) :
  (∀ h seg rest : string,
     headers inc_req !! "Accept-Language" = Some h →
     str_mem "," seg = false →
     h = seg ∨ h = seg +:+ "," +:+ rest →
     preferred_language inc_req = Ok (str_slice_to 2 seg) ∧
     (all_ascii seg = true → preferred_language inc_req = Ok (substring 0 2 seg))) ∧
  (headers inc_req !! "Accept-Language" = None →
     preferred_language inc_req = Ok "en") ∧
  (headers inc_req !! "Accept-Language" = Some "ru-RU,en;q=0.9" →
     preferred_language inc_req = Ok "ru").
Proof.
  unfold preferred_language, get_user_language, dict_get_default.
  split; [|split].
  - intros h seg rest -> Hseg Hh. cbn [from_option id].
    assert (list_item (str_split "," h) 0 = Ok seg) as ->.
    { destruct Hh as [->| ->].
      - rewrite str_split_no_sep by assumption. reflexivity.
      - change (seg +:+ "," +:+ rest) with (seg +:+ String "," rest).
        rewrite str_split_first by assumption. reflexivity. }
    simpl. split; [reflexivity|].
    intros Ha. rewrite str_slice_to_ascii by assumption. reflexivity.
  - intros ->. reflexivity.
  - intros ->. reflexivity.
Qed.

Lemma locale_resolution_witness :
  preferred_language ru_request = Ok "ru" ∧
  preferred_language {| args := ∅; headers := ∅ |} = Ok "en".
Proof.
  split.
  - apply (proj1 (locale_resolution ru_request) "ru-RU,en;q=0.9" "ru-RU" "en;q=0.9");
      [reflexivity | reflexivity | right; reflexivity | reflexivity].
  - apply (proj1 (proj2 (locale_resolution {| args := ∅; headers := ∅ |}))).
    reflexivity.
Defined.

(** ** Percent-encoding of the query values *)

Lemma unquote_quoter (b : ascii) (rest : string) :
  unquote_to_bytes (quoter "/" b +:+ rest) = String b (unquote_to_bytes rest).
Proof. destruct b as [[] [] [] [] [] [] [] []]; reflexivity. Qed.

Lemma unquote_quote (s : string) : unquote_to_bytes (quote s) = s.
Proof.
  unfold quote. induction s as [|b t IH]; simpl; [reflexivity|].
  rewrite unquote_quoter, IH. reflexivity.
Qed.

Lemma str_mem_app (c : ascii) (s1 s2 : string) :
  str_mem c (s1 +:+ s2) = str_mem c s1 || str_mem c s2.
Proof.
  induction s1 as [|d t IH]; simpl; [reflexivity|].
  rewrite IH, orb_assoc. reflexivity.
Qed.

(** What [quote] can write: the always-safe characters, [/] and [%]. *)
Lemma quoter_alphabet (b c : ascii) :
  str_mem c (quoter "/" b) = true → str_mem c (always_safe +:+ "/%") = true.
Proof.
  destruct b as [[] [] [] [] [] [] [] []]; cbv [quoter];
    (intros [->%Ascii.eqb_eq|H]%orb_true_iff; [reflexivity|]);
    try discriminate H;
    (apply orb_true_iff in H as [->%Ascii.eqb_eq|H]; [reflexivity|]);
    (apply orb_true_iff in H as [->%Ascii.eqb_eq|H]; [reflexivity|]);
    discriminate H.
Qed.

Lemma quote_alphabet (s : string) (c : ascii) :
  str_mem c (quote s) = true → str_mem c (always_safe +:+ "/%") = true.
Proof.
  unfold quote. induction s as [|b t IH]; simpl; [discriminate|].
  rewrite str_mem_app. intros [H|H]%orb_true_iff; [|auto].
  apply (quoter_alphabet b c H).
Qed.

Lemma quote_free (s : string) (c : ascii) :
  str_mem c (always_safe +:+ "/%") = false → str_mem c (quote s) = false.
Proof.
  intros Hc. destruct (str_mem c (quote s)) eqn:E; [|reflexivity].
  rewrite (quote_alphabet s c E) in Hc. discriminate.
Qed.

Lemma str_replace_free (a b : ascii) (s : string) :
  str_mem a s = false → str_replace a b s = s.
Proof.
  induction s as [|c t IH]; simpl; [reflexivity|].
  rewrite Ascii.eqb_sym. intros [-> Ht]%orb_false_elim. rewrite (IH Ht). reflexivity.
Qed.

Lemma unquote_plus_quote (s : string) : unquote_plus (quote s) = s.
Proof.
  unfold unquote_plus. rewrite str_replace_free by (apply quote_free; reflexivity).
  apply unquote_quote.
Qed.

Lemma parse_qsl_query (t r : string) :
  parse_qsl ("type=" +:+ quote t +:+ "&ref=" +:+ quote r) = [("type", t); ("ref", r)].
Proof.
  unfold parse_qsl.
  change ("type=" +:+ quote t +:+ "&ref=" +:+ quote r)
    with (("type=" +:+ quote t) +:+ String "&" ("ref=" +:+ quote r)).
  rewrite str_split_first
    by (rewrite str_mem_app; apply orb_false_intro; [reflexivity|apply quote_free; reflexivity]).
  rewrite str_split_no_sep
    by (rewrite str_mem_app; apply orb_false_intro; [reflexivity|apply quote_free; reflexivity]).
  assert (∀ x, str_partition "=" ("type=" +:+ x) = ("type", x)) as Ht by reflexivity.
  assert (∀ x, str_partition "=" ("ref=" +:+ x) = ("ref", x)) as Hr by reflexivity.
  cbn [fmap list_fmap]. rewrite Ht, Hr, !unquote_plus_quote. reflexivity.
Qed.

Lemma falsy_Some (s : string) : s ≠ "" → falsy (Some s) = false.
Proof. intros Hs. apply bool_decide_eq_false_2, Hs. Qed.

(** The view on a request with both parameters: one outbound GET. *)
Lemma get_doc_valid
    (req_base_url : string) (stdout : console) (inc_req : request) (t r lang : string) :
  args inc_req !! "type" = Some t → args inc_req !! "ref" = Some r →
  t ≠ "" → r ≠ "" →
  preferred_language inc_req = Ok lang →
  get_doc req_base_url stdout inc_req =
    OutReq "GET" (req_base_url +:+ "?type=" +:+ quote t +:+ "&ref=" +:+ quote r)
      (from_reply stdout lang).
Proof.
  intros Ht Hr Hte Hre Hl. unfold get_doc.
  rewrite Hl, Ht, Hr, !falsy_Some by assumption. reflexivity.
Qed.

(** C2, as the code has it.  For validated [type] and [ref], the outbound
    URL is the base URL followed by [?type=], the quoted type, [&ref=] and
    the quoted ref, each value quoted on its own; percent-decoding a quoted
    value gives the value back, and the receiving side reads the query
    string as exactly the two pairs.  [quote] keeps [/]: the value [A/B] is
    sent as [A/B]. *)
Theorem quote_roundtrip
    (req_base_url : string) (stdout : console) (inc_req : request) (t r : string) :
  args inc_req !! "type" = Some t → args inc_req !! "ref" = Some r →
  t ≠ "" → r ≠ "" →
  let query := "type=" +:+ quote t +:+ "&ref=" +:+ quote r in
  calls (get_doc req_base_url stdout inc_req) = [req_base_url +:+ "?" +:+ query] ∧
  unquote_to_bytes (quote t) = t ∧
  unquote_to_bytes (quote r) = r ∧
  parse_qsl query = [("type", t); ("ref", r)] ∧
  quote "A/B" = "A/B".
Proof.
  intros Ht Hr Hte Hre query.
  destruct (preferred_language_total inc_req) as [lang Hl].
  rewrite (get_doc_valid _ _ _ _ _ _ Ht Hr Hte Hre Hl).
  split; [reflexivity|].
  split; [apply unquote_quote|].
  split; [apply unquote_quote|].
  split; [apply parse_qsl_query|reflexivity].
Qed.

Lemma quote_roundtrip_witness :
  calls (get_doc "https://dms/api" utf8_console ru_request)
  = ["https://dms/api?type=Invoice&ref=A/B"] ∧
  unquote_to_bytes (quote "A/B") = "A/B".
Proof.
  destruct (quote_roundtrip "https://dms/api" utf8_console ru_request "Invoice" "A/B")
    as (Hcalls & _ & Hr & _); [reflexivity | reflexivity | discriminate | discriminate |].
  split; [exact Hcalls | exact Hr].
Defined.

(** C2 as stated fails: [A/B] is not written [A%2FB]. *)
Lemma quote_slash_not_encoded :
  ¬ (quote "A/B" = "A%2FB") ∧
  calls (get_doc "https://dms/api" utf8_console ru_request)
  ≠ ["https://dms/api?type=Invoice&ref=A%2FB"].
Proof. split; vm_compute; discriminate. Qed.

(** ** The handler's error paths *)

(** A run with an outbound request is one that resolved a locale and
    continues with [from_reply]. *)
Lemma get_doc_calls (req_base_url : string) (stdout : console) (inc_req : request) (url : string) :
  url ∈ calls (get_doc req_base_url stdout inc_req) →
  ∃ lang, preferred_language inc_req = Ok lang ∧
          get_doc req_base_url stdout inc_req = OutReq "GET" url (from_reply stdout lang).
Proof.
  unfold get_doc.
  destruct (preferred_language inc_req) as [lang|e]; simpl; [|intros []%elem_of_nil].
  destruct (falsy _ || falsy _); simpl; [intros []%elem_of_nil|].
  intros ->%list_elem_of_singleton. eauto.
Qed.

(** When [type] or [ref] is missing from the query string or is the empty
    string, the view raises [CustomError] with status 400 and error code
    400 without any outbound request, and the error handler answers with
    HTTP status 400.  The message is the 'invalid parameters' text of the
    locale for [en] and [ru], and the string ['en'] for any other
    locale. *)
Lemma missing_parameter_bad_request (req_base_url : string) (stdout : console) (inc_req : request) :
  args inc_req !! "type" = None ∨ args inc_req !! "type" = Some "" ∨
  args inc_req !! "ref" = None ∨ args inc_req !! "ref" = Some "" →
  ∃ lang message : string,
    preferred_language inc_req = Ok lang ∧
    get_error_messages 400 lang = Ok message ∧
    get_doc req_base_url stdout inc_req = Return (Raise (CustomError 400 message lang 400)) ∧
    calls (get_doc req_base_url stdout inc_req) = [] ∧
    (∀ out_req, serve req_base_url stdout out_req inc_req
                = Ok (handle_custom_error 400 message lang 400)) ∧
    status (handle_custom_error 400 message lang 400) = 400 ∧
    (lang = "en" → message = invalid_parameters_en) ∧
    (lang = "ru" → message = invalid_parameters_ru) ∧
    (lang ≠ "en" → lang ≠ "ru" → message = "en").
Proof.
  intros Hmissing.
  destruct (preferred_language_total inc_req) as [lang Hlang].
  exists lang, (default "en" (table_of 400 !! lang)).
  assert (falsy (args inc_req !! "type") || falsy (args inc_req !! "ref") = true) as Hf.
  { apply orb_true_iff.
    destruct Hmissing as [-> | [-> | [-> | ->]]]; auto. }
  assert (get_doc req_base_url stdout inc_req
          = Return (Raise (CustomError 400 (default "en" (table_of 400 !! lang)) lang 400)))
    as Hdoc.
  { unfold get_doc. rewrite Hlang, Hf, get_error_messages_eq. reflexivity. }
  split; [exact Hlang|]. split; [apply get_error_messages_eq|].
  split; [exact Hdoc|]. split; [rewrite Hdoc; reflexivity|].
  split; [intros out_req; unfold serve; rewrite Hdoc; reflexivity|].
  split; [reflexivity|].
  split; [intros ->; reflexivity|]. split; [intros ->; reflexivity|].
  intros Hen Hru. rewrite table_of_lookup, !decide_False by assumption. reflexivity.
Qed.

(** C3 (the code departs from it).  A request without [ref] whose
    [Accept-Language] is [fr] is refused before any outbound request, with
    status 400 and error code 400 as the claim says, but the message of the
    error is the string ['en'], not the 'invalid parameters' text that the
    locale [en] gets. *)
Theorem missing_parameter_message_fr (stdout : console) :
  get_doc "https://dms/api" stdout fr_request_without_ref
  = Return (Raise (CustomError 400 "en" "fr" 400)) ∧
  (∀ out_req, serve "https://dms/api" stdout out_req fr_request_without_ref
              = Ok (handle_custom_error 400 "en" "fr" 400)) ∧
  get_error_messages 400 "en" = Ok invalid_parameters_en ∧
  invalid_parameters_en ≠ "en".
Proof.
  assert (get_doc "https://dms/api" stdout fr_request_without_ref
          = Return (Raise (CustomError 400 "en" "fr" 400))) as Hdoc
    by (vm_compute; reflexivity).
  split; [exact Hdoc|].
  split; [intros out_req; unfold serve; rewrite Hdoc; reflexivity|].
  split; [vm_compute; reflexivity|discriminate].
Qed.

(** When the outbound request raises [ConnectionError], the view raises
    [CustomError] with status 500 and error code 500, and the error
    handler answers with HTTP status 500.  The message is the 'service is
    unavailable' text of the locale for [en] and [ru], and the string
    ['en'] for any other locale. *)
Lemma connection_error_service_unavailable
    (req_base_url : string) (stdout : console) (out_req : string → reply) (inc_req : request)
    (url : string) :
  url ∈ calls (get_doc req_base_url stdout inc_req) →
  out_req url = Raises ConnectionError →
  ∃ lang message : string,
    preferred_language inc_req = Ok lang ∧
    get_error_messages 500 lang = Ok message ∧
    run out_req (get_doc req_base_url stdout inc_req) = Raise (CustomError 500 message lang 500) ∧
    serve req_base_url stdout out_req inc_req = Ok (handle_custom_error 500 message lang 500) ∧
    status (handle_custom_error 500 message lang 500) = 500 ∧
    (lang = "en" → message = "Service is unavailable") ∧
    (lang = "ru" → message = "Сервис недоступен") ∧
    (lang ≠ "en" → lang ≠ "ru" → message = "en").
Proof.
  intros Hurl Hconn.
  destruct (get_doc_calls _ _ _ _ Hurl) as (lang & Hlang & Hdoc).
  exists lang, (default "en" (table_of 500 !! lang)).
  assert (run out_req (get_doc req_base_url stdout inc_req)
          = Raise (CustomError 500 (default "en" (table_of 500 !! lang)) lang 500)) as Hrun.
  { rewrite Hdoc. simpl. rewrite Hconn. simpl. rewrite get_error_messages_eq. reflexivity. }
  split; [exact Hlang|]. split; [apply get_error_messages_eq|].
  split; [exact Hrun|]. split; [unfold serve; rewrite Hrun; reflexivity|].
  split; [reflexivity|].
  split; [intros ->; reflexivity|]. split; [intros ->; reflexivity|].
  intros Hen Hru. rewrite table_of_lookup, !decide_False by assumption. reflexivity.
Qed.

(** C7 (the code departs from it).  When the outbound request of a valid
    request whose [Accept-Language] is [fr] raises [ConnectionError], the
    view raises [CustomError] with status 500 and error code 500 as the
    claim says, but the message of the error is the string ['en'], not the
    'service is unavailable' text that the locale [en] gets. *)
Theorem connection_error_message_fr (stdout : console) :
  calls (get_doc "https://dms/api" stdout fr_request) = ["https://dms/api?type=Invoice&ref=123"] ∧
  run (λ _, Raises ConnectionError) (get_doc "https://dms/api" stdout fr_request)
  = Raise (CustomError 500 "en" "fr" 500) ∧
  serve "https://dms/api" stdout (λ _, Raises ConnectionError) fr_request
  = Ok (handle_custom_error 500 "en" "fr" 500) ∧
  get_error_messages 500 "en" = Ok "Service is unavailable".
Proof. repeat split; vm_compute; reflexivity. Qed.

(** When the upstream answers with a status other than 200, the view
    raises [CustomError] whose status and error code are both that status,
    and the error handler answers with that status.  When the status is
    outside 400, 404, 409 and 500, the message is what the lookup gives for
    500 and the request's locale: the 'service is unavailable' text of the
    locale for [en] and [ru], and the string ['en'] for any other locale. *)
Lemma upstream_status_mirrored
    (req_base_url : string) (stdout : console) (out_req : string → reply) (inc_req : request)
    (url : string) (status_code : Z) (json : res value) :
  url ∈ calls (get_doc req_base_url stdout inc_req) →
  out_req url = Response status_code json →
  status_code ≠ 200 →
  ∃ lang message : string,
    preferred_language inc_req = Ok lang ∧
    get_error_messages status_code lang = Ok message ∧
    run out_req (get_doc req_base_url stdout inc_req)
      = Raise (CustomError status_code message lang status_code) ∧
    serve req_base_url stdout out_req inc_req
      = Ok (handle_custom_error status_code message lang status_code) ∧
    status (handle_custom_error status_code message lang status_code) = status_code ∧
    (status_code ∉ [400; 404; 409; 500] →
       get_error_messages 500 lang = Ok message ∧
       (lang = "en" → message = "Service is unavailable") ∧
       (lang = "ru" → message = "Сервис недоступен") ∧
       (lang ≠ "en" → lang ≠ "ru" → message = "en")).
Proof.
  intros Hurl Hresp Hne.
  destruct (get_doc_calls _ _ _ _ Hurl) as (lang & Hlang & Hdoc).
  exists lang, (default "en" (table_of status_code !! lang)).
  assert (run out_req (get_doc req_base_url stdout inc_req)
          = Raise (CustomError status_code (default "en" (table_of status_code !! lang))
                     lang status_code)) as Hrun.
  { rewrite Hdoc. simpl. rewrite Hresp. simpl. unfold from_response.
    rewrite bool_decide_eq_true_2 by congruence.
    rewrite get_error_messages_eq. reflexivity. }
  split; [exact Hlang|]. split; [apply get_error_messages_eq|].
  split; [exact Hrun|]. split; [unfold serve; rewrite Hrun; reflexivity|].
  split; [reflexivity|].
  rewrite !elem_of_cons, elem_of_nil. intros Hout.
  assert (table_of status_code = table_of 500) as ->
    by (unfold table_of; repeat case_decide; subst; try reflexivity; intuition lia).
  split; [apply get_error_messages_eq|].
  split; [intros ->; reflexivity|]. split; [intros ->; reflexivity|].
  intros Hen Hru. rewrite table_of_lookup, !decide_False by assumption. reflexivity.
Qed.

(** C4 (the code departs from it).  When the upstream answers 418 to a
    valid request whose [Accept-Language] is [fr], the view raises
    [CustomError] with status 418 and error code 418 and the error handler
    answers with status 418, as the claim says, but the message of the
    error is the string ['en'], which is no text of the entry of 500: that
    entry holds the 'service is unavailable' texts of [en] and [ru]. *)
Theorem upstream_status_message_fr (stdout : console) :
  calls (get_doc "https://dms/api" stdout fr_request) = ["https://dms/api?type=Invoice&ref=123"] ∧
  run (λ _, Response 418 (Raise JSONDecodeError)) (get_doc "https://dms/api" stdout fr_request)
  = Raise (CustomError 418 "en" "fr" 418) ∧
  serve "https://dms/api" stdout (λ _, Response 418 (Raise JSONDecodeError)) fr_request
  = Ok (handle_custom_error 418 "en" "fr" 418) ∧
  status (handle_custom_error 418 "en" "fr" 418) = 418 ∧
  messages !! 500 = Some table_500 ∧
  (∀ lang, table_500 !! lang ≠ Some "en") ∧
  get_error_messages 500 "en" = Ok "Service is unavailable".
Proof.
  split; [vm_compute; reflexivity|]. split; [vm_compute; reflexivity|].
  split; [vm_compute; reflexivity|]. split; [reflexivity|].
  split; [reflexivity|]. split; [|vm_compute; reflexivity].
  intros lang. change table_500 with (table_of 500). rewrite table_of_lookup.
  repeat case_decide; vm_compute; discriminate.
Qed.

(** ** Insertion-ordered dictionaries *)

Lemma dict_lookup_set_eq {V} (k : key) (v : V) (d : list (key * V)) :
  dict_lookup k (dict_set k v d) = Some v.
Proof.
  induction d as [|[k' v'] d IH]; simpl.
  - rewrite decide_True by reflexivity. reflexivity.
  - destruct (decide (k = k')) as [->|Hne]; simpl.
    + rewrite decide_True by reflexivity. reflexivity.
    + rewrite decide_False by assumption. exact IH.
Qed.

Lemma dict_lookup_set_ne {V} (k k' : key) (v : V) (d : list (key * V)) :
  k ≠ k' → dict_lookup k' (dict_set k v d) = dict_lookup k' d.
Proof.
  intros Hne. induction d as [|[k0 v0] d IH]; simpl.
  - rewrite decide_False by congruence. reflexivity.
  - destruct (decide (k = k0)) as [->|Hk]; simpl.
    + rewrite !decide_False by congruence. reflexivity.
    + destruct (decide (k' = k0)); [reflexivity|exact IH].
Qed.

Lemma elem_of_dict_keys {V} (k : key) (d : list (key * V)) :
  k ∈ dict_keys d ↔ is_Some (dict_lookup k d).
Proof.
  unfold dict_keys. induction d as [|[k' v'] d IH]; simpl.
  - rewrite elem_of_nil. split; [intros []|intros [? [=]]].
  - rewrite elem_of_cons, IH. destruct (decide (k = k')) as [->|Hne].
    + split; eauto.
    + split; [intros [?|?]; [contradiction|assumption]|auto].
Qed.

(** Setting a key that is not there appends it. *)
Lemma dict_set_fresh {V} (k : key) (v : V) (d : list (key * V)) :
  dict_lookup k d = None → dict_set k v d = d ++ [(k, v)].
Proof.
  induction d as [|[k' v'] d IH]; simpl; [reflexivity|].
  destruct (decide (k = k')); [discriminate|].
  intros Hd. rewrite (IH Hd). reflexivity.
Qed.

(** ** The response mapper *)

Lemma getitem_present (payload : value) (section : string) (v : value) :
  getitem payload section = Ok v → section_present payload section = true.
Proof.
  destruct payload; try discriminate. simpl. unfold dict_contains.
  destruct (dict_lookup _ _) eqn:E; [|discriminate].
  intros _. apply bool_decide_eq_true_2. eauto.
Qed.

Lemma document_data_present (payload dd : value) :
  document_data payload = Ok dd → section_present payload "ДанныеДокумента" = true.
Proof.
  unfold document_data, field.
  destruct (getitem payload "ДанныеДокумента") as [sec|e] eqn:E; [|discriminate].
  intros _. exact (getitem_present _ _ _ E).
Qed.

(** The shape of a produced [data]: [document_data] first, then one entry
    for each optional section present, in the order of the code. *)
Lemma build_data_inv (stdout : console) (payload : value) (data : list (key * value)) :
  build_data stdout payload = Ok data →
  ∃ dd,
    document_data payload = Ok dd ∧
    (section_present payload "ДанныеПодписи" = true → ∃ v, sign_data payload = Ok v) ∧
    (section_present payload "ДанныеФайлов" = true → ∃ v, attached_files payload = Ok v) ∧
    (section_present payload "ДанныеВизСогласования" = true →
       ∃ v, approvement_data payload = Ok v) ∧
    (section_present payload "ДанныеQR" = true → ∃ v, qr_data payload = Ok v) ∧
    data = (KStr "document_data", dd)
           :: section_entry payload "ДанныеПодписи" "sign_data" (sign_data payload)
           ++ section_entry payload "ДанныеФайлов" "attached_files" (attached_files payload)
           ++ section_entry payload "ДанныеВизСогласования" "approvement_data"
                (approvement_data payload)
           ++ section_entry payload "ДанныеQR" "qr_data" (qr_data payload).
Proof.
  unfold build_data, add_section, section_entry.
  destruct payload as [| | | | | |sections]; try discriminate.
  generalize (document_data (VDict sections)) (sign_data (VDict sections))
    (attached_files (VDict sections)) (approvement_data (VDict sections))
    (qr_data (VDict sections)).
  intros rdd rsd raf rad rqr. cbn [items mbind res_bind].
  destruct (print_loop stdout sections) as [[]|e]; [|discriminate].
  destruct rdd as [dd|e]; [|discriminate].
  cbn [items section_present mbind res_bind mret res_ret].
  intros H. exists dd. revert H.
  destruct (dict_contains (KStr "ДанныеПодписи") sections),
    (dict_contains (KStr "ДанныеФайлов") sections),
    (dict_contains (KStr "ДанныеВизСогласования") sections),
    (dict_contains (KStr "ДанныеQR") sections);
    destruct rsd as [sd|?], raf as [af|?], rad as [ad|?], rqr as [qr|?];
    cbn [mbind res_bind mret res_ret]; try discriminate;
    (intros H; injection H as H; subst data);
    (split; [reflexivity|]);
    do 4 (split; [intros Hp; first [discriminate Hp | eauto]|]);
    reflexivity.
Qed.

Lemma section_entry_keys (payload : value) (section name : string) (build : res value) :
  (section_present payload section = true → ∃ v, build = Ok v) →
  (section_entry payload section name build).*1
  = if section_present payload section then [KStr name] else [].
Proof.
  unfold section_entry. destruct (section_present payload section); [|reflexivity].
  intros [v ->]; reflexivity.
Qed.

(** The keys of a produced [data], in order: the names of the sections
    that are present, in the order of [section_names]. *)
Lemma build_data_keys (stdout : console) (payload : value) (data : list (key * value)) :
  build_data stdout payload = Ok data →
  dict_keys data
  = KStr "document_data"
    :: (if section_present payload "ДанныеПодписи" then [KStr "sign_data"] else [])
    ++ (if section_present payload "ДанныеФайлов" then [KStr "attached_files"] else [])
    ++ (if section_present payload "ДанныеВизСогласования"
        then [KStr "approvement_data"] else [])
    ++ (if section_present payload "ДанныеQR" then [KStr "qr_data"] else []).
Proof.
  intros (dd & _ & H1 & H2 & H3 & H4 & ->)%build_data_inv.
  unfold dict_keys. rewrite fmap_cons, !fmap_app.
  rewrite !section_entry_keys by assumption. reflexivity.
Qed.

(** A model is produced as soon as the standard output takes the items of
    the payload, the document step goes through and so does the step of
    each optional section that is present. *)
Lemma build_data_produces (stdout : console) (sections : list (key * value)) :
  let payload := VDict sections in
  printable stdout sections = true →
  (∃ dd, document_data payload = Ok dd) →
  (section_present payload "ДанныеПодписи" = true → ∃ v, sign_data payload = Ok v) →
  (section_present payload "ДанныеФайлов" = true → ∃ v, attached_files payload = Ok v) →
  (section_present payload "ДанныеВизСогласования" = true →
     ∃ v, approvement_data payload = Ok v) →
  (section_present payload "ДанныеQR" = true → ∃ v, qr_data payload = Ok v) →
  ∃ data, build_data stdout payload = Ok data.
Proof.
  intros payload Hprint [dd Hdd] H1 H2 H3 H4. subst payload.
  unfold build_data, add_section. cbn [items section_present mbind res_bind] in *.
  assert (print_loop stdout sections = Ok ()) as ->.
  { clear -Hprint. induction sections as [|[k v] rest IH]; [reflexivity|].
    cbn [printable forallb fst snd] in Hprint. apply andb_true_iff in Hprint as [Hkv Hrest].
    cbn [print_loop]. unfold print. rewrite Hkv. exact (IH Hrest). }
  rewrite Hdd. cbn [mbind res_bind].
  destruct (dict_contains (KStr "ДанныеПодписи") sections);
    [destruct (H1 eq_refl) as [? ->]|];
    (destruct (dict_contains (KStr "ДанныеФайлов") sections);
     [destruct (H2 eq_refl) as [? ->]|]);
    (destruct (dict_contains (KStr "ДанныеВизСогласования") sections);
     [destruct (H3 eq_refl) as [? ->]|]);
    (destruct (dict_contains (KStr "ДанныеQR") sections);
     [destruct (H4 eq_refl) as [? ->]|]);
    cbn [mbind res_bind mret res_ret]; eauto.
Qed.

(** C5.  The top-level keys of a produced presentation model are among
    [document_data], [sign_data], [attached_files], [approvement_data] and
    [qr_data], and each of them is there exactly when its upstream section
    is present in the payload. *)
Theorem presentation_keys (stdout : console) (payload : value) (data : list (key * value)) :
  build_data stdout payload = Ok data →
  (∀ k, k ∈ dict_keys data →
        k ∈ KStr <$> ["document_data"; "sign_data"; "attached_files";
                      "approvement_data"; "qr_data"]) ∧
  (∀ section name, (section, name) ∈ section_names →
     (KStr name ∈ dict_keys data ↔ section_present payload section = true)).
Proof.
  intros Hdata. pose proof (build_data_keys _ _ _ Hdata) as Hkeys.
  assert (section_present payload "ДанныеДокумента" = true) as Hdoc.
  { apply build_data_inv in Hdata as (dd & Hdd & _).
    exact (document_data_present _ _ Hdd). }
  rewrite Hkeys. clear Hkeys Hdata data.
  destruct (section_present payload "ДанныеПодписи") eqn:E1,
    (section_present payload "ДанныеФайлов") eqn:E2,
    (section_present payload "ДанныеВизСогласования") eqn:E3,
    (section_present payload "ДанныеQR") eqn:E4;
    (split;
     [ intros k Hk; cbn [app] in Hk;
       repeat (apply elem_of_cons in Hk as [->|Hk]; [decide_elem|]);
       apply elem_of_nil in Hk; contradiction
     | intros section name Hsn; unfold section_names in Hsn;
       repeat (apply elem_of_cons in Hsn as [[= -> ->]|Hsn];
               [ rewrite ?Hdoc, ?E1, ?E2, ?E3, ?E4;
                 (split; [intros Hk; first [reflexivity | exfalso; revert Hk; decide_elem]
                         | intros Ht; first [discriminate Ht | decide_elem]])|]);
       apply elem_of_nil in Hsn; contradiction ]).
Qed.

Lemma presentation_keys_witness :
  build_data utf8_console complete_document = Ok complete_document_data ∧
  dict_keys complete_document_data
  = KStr <$> ["document_data"; "sign_data"; "attached_files"; "approvement_data"; "qr_data"] ∧
  (∀ k, k ∈ dict_keys complete_document_data →
        k ∈ KStr <$> ["document_data"; "sign_data"; "attached_files";
                      "approvement_data"; "qr_data"]) ∧
  (∀ section name, (section, name) ∈ section_names →
     (KStr name ∈ dict_keys complete_document_data
      ↔ section_present complete_document section = true)).
Proof.
  split; [vm_compute; reflexivity|]. split; [reflexivity|].
  apply (presentation_keys utf8_console complete_document complete_document_data).
  vm_compute. reflexivity.
Defined.

(** ** The approval section *)

Lemma dict_lookup_app_None {V} (k : key) (d1 d2 : list (key * V)) :
  dict_lookup k d1 = None → dict_lookup k (d1 ++ d2) = dict_lookup k d2.
Proof.
  induction d1 as [|[k' v'] d1 IH]; simpl; [reflexivity|].
  destruct (decide (k = k')); [discriminate|exact IH].
Qed.

(** The loop appends one entry for each person, keyed by its index, as long
    as the indices from [index] on are free in the dictionary it starts
    from. *)
Lemma approvement_loop_inv (persons : list value) :
  ∀ (index : Z) (acc m : list (key * value)),
    (∀ j, index ≤ j → dict_lookup (KInt j) acc = None) →
    approvement_loop index persons acc = Ok m →
    ∃ entries,
      Forall2 (λ person entry, approvement_entry person = Ok entry) persons entries ∧
      m = acc ++ imap (λ i entry, (KInt (index + Z.of_nat i), entry)) entries.
Proof.
  induction persons as [|person rest IH]; intros index acc m Hfree; simpl.
  - intros [= <-]. exists []. split; [constructor|]. rewrite app_nil_r. reflexivity.
  - destruct (approvement_entry person) as [entry|e] eqn:Hentry; [|discriminate].
    cbn [mbind res_bind]. rewrite dict_set_fresh by (apply Hfree; lia).
    intros Hloop. apply IH in Hloop as (entries & Hall & ->).
    + exists (entry :: entries). split; [constructor; assumption|].
      rewrite <- app_assoc, imap_cons, Z.add_0_r. cbn [app]. do 2 f_equal.
      apply imap_ext. intros i x _. simpl. do 2 f_equal. lia.
    + intros j Hj. rewrite dict_lookup_app_None by (apply Hfree; lia).
      simpl. rewrite decide_False by (intros [=]; lia). reflexivity.
Qed.

Lemma imap_keys {V} (f : nat → key) (entries : list V) :
  (imap (λ i entry, (f i, entry)) entries).*1 = f <$> seq 0 (length entries).
Proof.
  rewrite fmap_imap. apply (imap_seq_0 entries f).
Qed.

Lemma imap_dict_lookup {V} (entries : list V) :
  ∀ (f : nat → key) (i : nat),
    Inj (=) (=) f →
    dict_lookup (f i) (imap (λ j entry, (f j, entry)) entries) = entries !! i.
Proof.
  induction entries as [|entry rest IH]; intros f i Hinj; [reflexivity|].
  rewrite imap_cons. simpl. destruct i as [|i].
  - rewrite decide_True by reflexivity. reflexivity.
  - rewrite decide_False by (intros [=]%Hinj). simpl.
    apply (IH (f ∘ S) i). intros x y Hxy. apply Hinj in Hxy. congruence.
Qed.

Lemma approvement_entry_inv (person entry : value) :
  approvement_entry person = Ok entry →
  ∃ role name sign_date approvement_mark comment,
    getitem person "Должность" = Ok role ∧
    getitem person "Исполнитель" = Ok name ∧
    getitem person "ДатаИсполнения" = Ok sign_date ∧
    getitem person "РезультатСогласования" = Ok approvement_mark ∧
    getitem person "РезультатВыполнения" = Ok comment ∧
    entry = VDict [(KStr "role", role); (KStr "name", name);
                   (KStr "sign_date", sign_date);
                   (KStr "approvement_mark", approvement_mark);
                   (KStr "comment", comment)].
Proof.
  unfold approvement_entry.
  destruct (getitem person "Должность") as [role|?]; [|discriminate].
  destruct (getitem person "Исполнитель") as [name|?]; [|discriminate].
  destruct (getitem person "ДатаИсполнения") as [sign_date|?]; [|discriminate].
  destruct (getitem person "РезультатСогласования") as [mark|?]; [|discriminate].
  destruct (getitem person "РезультатВыполнения") as [comment|?]; [|discriminate].
  intros [= <-]. exists role, name, sign_date, mark, comment. repeat split; reflexivity.
Qed.

(** An entry that has the five fields is mapped. *)
Lemma approvement_entry_total (person : value) :
  (∀ f, f ∈ approvement_fields → ∃ v, getitem person f = Ok v) →
  ∃ entry, approvement_entry person = Ok entry.
Proof.
  intros H. unfold approvement_entry.
  destruct (H "Должность") as [? ->]; [decide_elem|].
  destruct (H "Исполнитель") as [? ->]; [decide_elem|].
  destruct (H "ДатаИсполнения") as [? ->]; [decide_elem|].
  destruct (H "РезультатСогласования") as [? ->]; [decide_elem|].
  destruct (H "РезультатВыполнения") as [? ->]; [decide_elem|].
  simpl. eauto.
Qed.

(** The approval loop goes through when every entry has its fields. *)
Lemma approvement_loop_total (persons : list value) :
  Forall (λ person, ∃ entry, approvement_entry person = Ok entry) persons →
  ∀ index acc, ∃ m, approvement_loop index persons acc = Ok m.
Proof.
  induction 1 as [|person rest [entry Hentry] _ IH]; intros index acc; simpl; [eauto|].
  rewrite Hentry. apply IH.
Qed.

(** The approval step goes through when the section is a list whose
    entries all have the five fields. *)
Lemma approvement_data_total (payload : value) (persons : list value) :
  getitem payload "ДанныеВизСогласования" = Ok (VList persons) →
  Forall (λ person, ∀ f, f ∈ approvement_fields → ∃ v, getitem person f = Ok v) persons →
  ∃ m, approvement_data payload = Ok (VDict m).
Proof.
  intros Hsec Hall. unfold approvement_data. rewrite Hsec. cbn [mbind res_bind iterate].
  destruct (approvement_loop_total persons) with (index := 0) (acc := @nil (key * value))
    as [m ->].
  - eapply Forall_impl; [exact Hall|]. intros person. apply approvement_entry_total.
  - exists m. reflexivity.
Qed.

(** What [data] holds under [approvement_data] when the section is there. *)
Lemma build_data_approvement (stdout : console) (payload : value) (data : list (key * value)) :
  build_data stdout payload = Ok data →
  section_present payload "ДанныеВизСогласования" = true →
  ∃ v, approvement_data payload = Ok v ∧
       dict_lookup (KStr "approvement_data") data = Some v.
Proof.
  intros (dd & _ & H1 & H2 & H3 & H4 & ->)%build_data_inv Hp.
  destruct (H3 Hp) as [v Hv]. exists v. split; [exact Hv|].
  unfold section_entry. rewrite Hp, Hv.
  destruct (section_present payload "ДанныеПодписи");
    [destruct (H1 eq_refl) as [? ->]|];
    (destruct (section_present payload "ДанныеФайлов");
     [destruct (H2 eq_refl) as [? ->]|]); reflexivity.
Qed.

Lemma build_data_no_approvement (stdout : console) (payload : value) (data : list (key * value)) :
  build_data stdout payload = Ok data →
  section_present payload "ДанныеВизСогласования" = false →
  dict_lookup (KStr "approvement_data") data = None.
Proof.
  intros Hdata Habsent.
  destruct (dict_lookup (KStr "approvement_data") data) as [v|] eqn:E; [|reflexivity].
  assert (KStr "approvement_data" ∈ dict_keys data) as Hk
    by (apply elem_of_dict_keys; rewrite E; eauto).
  rewrite (build_data_keys _ _ _ Hdata), Habsent in Hk. exfalso. revert Hk.
  destruct (section_present payload "ДанныеПодписи"),
    (section_present payload "ДанныеФайлов"),
    (section_present payload "ДанныеQR"); decide_elem.
Qed.

(** C6.  When the approval section is absent, a produced presentation
    model has no [approvement_data] key.  When it is a list of N entries,
    [approvement_data] is a dictionary whose keys are the integers 0 to N-1
    in this order, and key [i] holds the role, name, action date, approval
    outcome and outcome comment read from the [i]-th entry of the list. *)
Theorem approvement_data_indexed (stdout : console) (payload : value) (data : list (key * value)) :
  build_data stdout payload = Ok data →
  (section_present payload "ДанныеВизСогласования" = false →
     dict_lookup (KStr "approvement_data") data = None) ∧
  (∀ persons : list value,
     getitem payload "ДанныеВизСогласования" = Ok (VList persons) →
     ∃ m : list (key * value),
       dict_lookup (KStr "approvement_data") data = Some (VDict m) ∧
       dict_keys m = (λ i, KInt (Z.of_nat i)) <$> seq 0 (length persons) ∧
       ∀ (i : nat) (person : value),
         persons !! i = Some person →
         ∃ role name sign_date approvement_mark comment,
           getitem person "Должность" = Ok role ∧
           getitem person "Исполнитель" = Ok name ∧
           getitem person "ДатаИсполнения" = Ok sign_date ∧
           getitem person "РезультатСогласования" = Ok approvement_mark ∧
           getitem person "РезультатВыполнения" = Ok comment ∧
           dict_lookup (KInt (Z.of_nat i)) m
           = Some (VDict [(KStr "role", role); (KStr "name", name);
                          (KStr "sign_date", sign_date);
                          (KStr "approvement_mark", approvement_mark);
                          (KStr "comment", comment)])).
Proof.
  intros Hdata. split.
  - intros Habsent. exact (build_data_no_approvement _ _ _ Hdata Habsent).
  - intros persons Hsec.
    destruct (build_data_approvement _ _ _ Hdata (getitem_present _ _ _ Hsec))
      as (v & Hv & Hlookup).
    unfold approvement_data in Hv. rewrite Hsec in Hv. cbn [mbind res_bind iterate] in Hv.
    destruct (approvement_loop 0 persons []) as [m|e] eqn:Hloop; [|discriminate].
    injection Hv as <-. exists m. split; [exact Hlookup|].
    apply approvement_loop_inv in Hloop as (entries & Hall & ->); [|reflexivity].
    cbn [app].
    rewrite (imap_ext _ (λ i entry, (KInt (Z.of_nat i), entry)))
      by (intros; simpl; do 2 f_equal; lia).
    split.
    + unfold dict_keys. rewrite (imap_keys (λ i, KInt (Z.of_nat i))).
      rewrite (Forall2_length _ _ _ Hall). reflexivity.
    + intros i person Hi.
      destruct (Forall2_lookup_l _ _ _ _ _ Hall Hi) as (entry & Hei & Hentry).
      apply approvement_entry_inv in Hentry
        as (role & name & sign_date & mark & comment & ? & ? & ? & ? & ? & ->).
      exists role, name, sign_date, mark, comment.
      repeat (split; [assumption|]).
      rewrite (imap_dict_lookup entries (λ i, KInt (Z.of_nat i)))
        by (intros x y [=]; lia).
      exact Hei.
Qed.

Lemma approvement_data_indexed_witness :
  ∃ m, dict_lookup (KStr "approvement_data") approved_document_data = Some (VDict m) ∧
       dict_keys m = [KInt 0; KInt 1].
Proof.
  destruct (approvement_data_indexed utf8_console approved_document approved_document_data)
    as [_ H]; [vm_compute; reflexivity|].
  destruct (H [approver "Director" "A"; approver "Accountant" "B"])
    as (m & Hm & Hkeys & _); [reflexivity|].
  exists m. split; [exact Hm|exact Hkeys].
Defined.

(** ** Required fields and the one default *)

Lemma bind_Ok_inv {A B} (m : res A) (k : A → res B) (b : B) :
  m ≫= k = Ok b → ∃ a, m = Ok a ∧ k a = Ok b.
Proof. destruct m as [a|e]; [eauto|discriminate]. Qed.

Lemma not_Ok_Raise {A} (r : res A) : (∀ a, r ≠ Ok a) → ∃ e, r = Raise e.
Proof. destruct r as [a|e]; [intros H; destruct (H a eq_refl)|eauto]. Qed.

Lemma getitem_dict (d : list (key * value)) (k : string) (v : value) :
  getitem (VDict d) k = Ok v ↔ dict_lookup (KStr k) d = Some v.
Proof.
  simpl. destruct (dict_lookup (KStr k) d); split; intros [=]; subst; reflexivity.
Qed.

Lemma field_dict (payload : value) (section name : string)
    (sec : list (key * value)) (v : value) :
  getitem payload section = Ok (VDict sec) →
  (field payload section name = Ok v ↔ dict_lookup (KStr name) sec = Some v).
Proof.
  intros Hsec. unfold field. rewrite Hsec. cbn [mbind res_bind]. apply getitem_dict.
Qed.

Ltac inv_binds H :=
  repeat (let a := fresh "v" in
          let Ha := fresh "Hv" in
          apply bind_Ok_inv in H as (a & Ha & H)).

Ltac in_fields Hf :=
  repeat (apply elem_of_cons in Hf as [->|Hf]; [eauto|]);
  apply elem_of_nil in Hf; contradiction.

Lemma document_data_required (payload dd : value) (f : string) :
  document_data payload = Ok dd → f ∈ document_fields →
  ∃ v, field payload "ДанныеДокумента" f = Ok v.
Proof. unfold document_data, document_fields. intros H Hf. inv_binds H. in_fields Hf. Qed.

Lemma sign_data_required (payload sd : value) (f : string) :
  sign_data payload = Ok sd → f ∈ sign_fields →
  ∃ v, field payload "ДанныеПодписи" f = Ok v.
Proof. unfold sign_data, sign_fields. intros H Hf. inv_binds H. in_fields Hf. Qed.

Lemma qr_data_required (payload qr : value) (f : string) :
  qr_data payload = Ok qr → f ∈ qr_fields →
  ∃ v, field payload "ДанныеQR" f = Ok v.
Proof. unfold qr_data, qr_fields. intros H Hf. inv_binds H. in_fields Hf. Qed.

Lemma cor_file_data_required (file_data cor : value) (f : string) :
  cor_file_data file_data = Ok cor → f ∈ file_fields →
  ∃ v, getitem file_data f = Ok v.
Proof. unfold cor_file_data, file_fields. intros H Hf. inv_binds H. in_fields Hf. Qed.

Lemma approvement_entry_required (person entry : value) (f : string) :
  approvement_entry person = Ok entry → f ∈ approvement_fields →
  ∃ v, getitem person f = Ok v.
Proof.
  unfold approvement_entry, approvement_fields. intros H Hf. inv_binds H. in_fields Hf.
Qed.

Lemma attached_files_loop_required (entries : list (key * value)) :
  ∀ (acc m : list (key * value)) (file : key) (file_data : value),
    attached_files_loop entries acc = Ok m →
    (file, file_data) ∈ entries →
    ∃ cor, cor_file_data file_data = Ok cor.
Proof.
  induction entries as [|[file0 fd0] rest IH]; intros acc m file file_data; simpl.
  - intros _ []%elem_of_nil.
  - intros H Hin. apply bind_Ok_inv in H as (cor & Hcor & H).
    apply elem_of_cons in Hin as [[= -> ->]|Hin]; [eauto|].
    exact (IH _ _ _ _ H Hin).
Qed.

Lemma approvement_loop_required (persons : list value) :
  ∀ (index : Z) (acc m : list (key * value)) (person : value),
    approvement_loop index persons acc = Ok m →
    person ∈ persons →
    ∃ entry, approvement_entry person = Ok entry.
Proof.
  induction persons as [|p rest IH]; intros index acc m person; simpl.
  - intros _ []%elem_of_nil.
  - intros H Hin. apply bind_Ok_inv in H as (entry & Hentry & H).
    apply elem_of_cons in Hin as [->|Hin]; [eauto|].
    exact (IH _ _ _ _ H Hin).
Qed.

Lemma build_data_document (stdout : console) (payload : value) (data : list (key * value)) :
  build_data stdout payload = Ok data →
  ∃ dd, document_data payload = Ok dd ∧
        dict_lookup (KStr "document_data") data = Some dd.
Proof.
  intros (dd & Hdd & _ & _ & _ & _ & ->)%build_data_inv.
  exists dd. split; [exact Hdd|reflexivity].
Qed.

(** The document step on a section that is an object. *)
Lemma document_data_eq (payload : value) (sec : list (key * value)) :
  getitem payload "ДанныеДокумента" = Ok (VDict sec) →
  document_data payload =
    document_name ← getitem (VDict sec) "Наименование";
    document_number ← getitem (VDict sec) "НомерДокумента";
    registration_date ← getitem (VDict sec) "ДатаРегистрации";
    registered_by ← getitem (VDict sec) "Зарегистрировал";
    mret (VDict [(KStr "document_name", document_name);
                 (KStr "document_number", document_number);
                 (KStr "registration_date", registration_date);
                 (KStr "registered_by", registered_by);
                 (KStr "prepared_by",
                  default (VStr "") (dict_lookup (KStr "Подготовил") sec))]).
Proof.
  intros Hsec. unfold document_data, field. rewrite Hsec. reflexivity.
Qed.

(** C8 as stated fails: the document section of [empty_document] is
    present, and the mapper raises [KeyError] at the first field it reads
    instead of producing the document fields. *)
Lemma document_section_without_fields :
  section_present empty_document "ДанныеДокумента" = true ∧
  document_data empty_document = Raise (KeyError (KStr "Наименование")) ∧
  build_data utf8_console empty_document = Raise (KeyError (KStr "Наименование")) ∧
  ¬ ∃ data, build_data utf8_console empty_document = Ok data.
Proof.
  split; [reflexivity|]. split; [reflexivity|]. split; [reflexivity|].
  intros [data [=]].
Qed.

(** C8, as the code has it.  On a payload whose document section is an
    object [sec]:
    the document step yields the five fields [document_name],
    [document_number], [registration_date], [registered_by] and
    [prepared_by] as soon as [sec] has the name, the number, the
    registration date and the registrar, whether or not it has the
    preparer; every produced presentation model holds these five fields
    under [document_data], the first four as they are in [sec] and
    [prepared_by] as in [sec], or the empty string when [sec] has none.
    No other field has a default: when a field that the mapper reads from
    the document, signature or QR section, from a file entry or from an
    approval entry is missing, the mapper raises and produces no model. *)
Theorem document_data_fields (stdout : console) (payload : value) (sec : list (key * value)) :
  getitem payload "ДанныеДокумента" = Ok (VDict sec) →
  (∀ name number date registrar,
     dict_lookup (KStr "Наименование") sec = Some name →
     dict_lookup (KStr "НомерДокумента") sec = Some number →
     dict_lookup (KStr "ДатаРегистрации") sec = Some date →
     dict_lookup (KStr "Зарегистрировал") sec = Some registrar →
     ∃ preparer,
       document_data payload = Ok (document_record name number date registrar preparer) ∧
       (dict_lookup (KStr "Подготовил") sec = None → preparer = VStr "") ∧
       (∀ p, dict_lookup (KStr "Подготовил") sec = Some p → preparer = p)) ∧
  (∀ data, build_data stdout payload = Ok data →
     ∃ name number date registrar preparer,
       dict_lookup (KStr "Наименование") sec = Some name ∧
       dict_lookup (KStr "НомерДокумента") sec = Some number ∧
       dict_lookup (KStr "ДатаРегистрации") sec = Some date ∧
       dict_lookup (KStr "Зарегистрировал") sec = Some registrar ∧
       dict_lookup (KStr "document_data") data
       = Some (document_record name number date registrar preparer) ∧
       (dict_lookup (KStr "Подготовил") sec = None → preparer = VStr "") ∧
       (∀ p, dict_lookup (KStr "Подготовил") sec = Some p → preparer = p)) ∧
  (∀ section fields (f : string) (s : list (key * value)),
     (section, fields)
       ∈ [("ДанныеДокумента", document_fields); ("ДанныеПодписи", sign_fields);
          ("ДанныеQR", qr_fields)] →
     f ∈ fields →
     getitem payload section = Ok (VDict s) →
     dict_lookup (KStr f) s = None →
     ∃ e, build_data stdout payload = Raise e) ∧
  (∀ (files : list (key * value)) (file : key) (file_data : list (key * value)) (f : string),
     getitem payload "ДанныеФайлов" = Ok (VDict files) →
     (file, VDict file_data) ∈ files →
     f ∈ file_fields →
     dict_lookup (KStr f) file_data = None →
     ∃ e, build_data stdout payload = Raise e) ∧
  (∀ (persons : list value) (person : list (key * value)) (f : string),
     getitem payload "ДанныеВизСогласования" = Ok (VList persons) →
     VDict person ∈ persons →
     f ∈ approvement_fields →
     dict_lookup (KStr f) person = None →
     ∃ e, build_data stdout payload = Raise e).
Proof.
  intros Hsec.
  assert (∀ preparer, preparer = default (VStr "") (dict_lookup (KStr "Подготовил") sec) →
            (dict_lookup (KStr "Подготовил") sec = None → preparer = VStr "") ∧
            (∀ p, dict_lookup (KStr "Подготовил") sec = Some p → preparer = p)) as Hprep.
  { intros preparer ->. split; [intros ->; reflexivity|intros p ->; reflexivity]. }
  split; [|split; [|split; [|split]]].
  - intros name number date registrar Hn Hnum Hd Hr.
    exists (default (VStr "") (dict_lookup (KStr "Подготовил") sec)).
    split; [|apply Hprep; reflexivity].
    rewrite (document_data_eq _ _ Hsec). simpl.
    rewrite Hn, Hnum, Hd, Hr. reflexivity.
  - intros data (dd & Hdd & Hlookup)%build_data_document.
    rewrite (document_data_eq _ _ Hsec) in Hdd.
    apply bind_Ok_inv in Hdd as (name & Hn%getitem_dict & Hdd).
    apply bind_Ok_inv in Hdd as (number & Hnum%getitem_dict & Hdd).
    apply bind_Ok_inv in Hdd as (date & Hd%getitem_dict & Hdd).
    apply bind_Ok_inv in Hdd as (registrar & Hr%getitem_dict & Hdd).
    injection Hdd as <-.
    exists name, number, date, registrar,
      (default (VStr "") (dict_lookup (KStr "Подготовил") sec)).
    repeat (split; [assumption|]). apply Hprep. reflexivity.
  - intros section fs f s Hsf Hf Hs Hnone. apply not_Ok_Raise. intros data Hdata.
    pose proof (getitem_present _ _ _ Hs) as Hp.
    apply build_data_inv in Hdata as (dd & Hdd & H1 & _ & _ & H4 & _).
    assert (∃ v, field payload section f = Ok v) as [v Hv].
    { repeat (apply elem_of_cons in Hsf as [[= -> ->]|Hsf]).
      - exact (document_data_required _ _ _ Hdd Hf).
      - destruct (H1 Hp) as [sd Hsd]. exact (sign_data_required _ _ _ Hsd Hf).
      - destruct (H4 Hp) as [qr Hqr]. exact (qr_data_required _ _ _ Hqr Hf).
      - apply elem_of_nil in Hsf. contradiction. }
    apply (field_dict _ _ _ _ _ Hs) in Hv. congruence.
  - intros files file file_data f Hfiles Hin Hf Hnone. apply not_Ok_Raise.
    intros data Hdata.
    pose proof (getitem_present _ _ _ Hfiles) as Hp.
    apply build_data_inv in Hdata as (dd & _ & _ & H2 & _).
    destruct (H2 Hp) as [af Haf]. unfold attached_files in Haf.
    rewrite Hfiles in Haf. cbn [mbind res_bind items] in Haf.
    destruct (attached_files_loop files []) as [m|e] eqn:Hloop; [|discriminate].
    destruct (attached_files_loop_required _ _ _ _ _ Hloop Hin) as [cor Hcor].
    destruct (cor_file_data_required _ _ _ Hcor Hf) as [v Hv%getitem_dict].
    congruence.
  - intros persons person f Hpersons Hin Hf Hnone. apply not_Ok_Raise.
    intros data Hdata.
    pose proof (getitem_present _ _ _ Hpersons) as Hp.
    apply build_data_inv in Hdata as (dd & _ & _ & _ & H3 & _).
    destruct (H3 Hp) as [ad Had]. unfold approvement_data in Had.
    rewrite Hpersons in Had. cbn [mbind res_bind iterate] in Had.
    destruct (approvement_loop 0 persons []) as [m|e] eqn:Hloop; [|discriminate].
    destruct (approvement_loop_required _ _ _ _ _ Hloop Hin) as [entry Hentry].
    destruct (approvement_entry_required _ _ _ Hentry Hf) as [v Hv%getitem_dict].
    congruence.
Qed.

Lemma document_data_fields_witness :
  document_data only_document
  = Ok (document_record (VStr "Invoice") (VStr "123") (VStr "2024-05-17")
          (VStr "Registrar") (VStr "")).
Proof.
  destruct (proj1 (document_data_fields utf8_console only_document document_section eq_refl)
              (VStr "Invoice") (VStr "123") (VStr "2024-05-17") (VStr "Registrar"))
    as (preparer & Hdd & Hnone & _); [reflexivity..|].
  rewrite Hdd, (Hnone eq_refl). reflexivity.
Defined.

(** ** The document-only scenario *)

(** The scenario of a payload with the document section only: one
    top-level key, [document_data], with the five fields. *)
Lemma build_data_only_document
    (stdout : console) (sec : list (key * value)) (name number date registrar : value) :
  stdout (KStr "ДанныеДокумента") (VDict sec) = true →
  dict_lookup (KStr "Наименование") sec = Some name →
  dict_lookup (KStr "НомерДокумента") sec = Some number →
  dict_lookup (KStr "ДатаРегистрации") sec = Some date →
  dict_lookup (KStr "Зарегистрировал") sec = Some registrar →
  build_data stdout (VDict [(KStr "ДанныеДокумента", VDict sec)])
  = Ok [(KStr "document_data",
         document_record name number date registrar
           (default (VStr "") (dict_lookup (KStr "Подготовил") sec)))].
Proof.
  intros Hout Hn Hnum Hd Hr. unfold build_data.
  rewrite (document_data_eq _ sec) by reflexivity.
  cbn [items print_loop mbind res_bind]. unfold print. rewrite Hout.
  simpl. rewrite Hn, Hnum, Hd, Hr. reflexivity.
Qed.

(** A produced model comes from a payload whose document section is an
    object. *)
Lemma build_data_document_section (stdout : console) (payload : value) (data : list (key * value)) :
  build_data stdout payload = Ok data →
  ∃ sec, getitem payload "ДанныеДокумента" = Ok (VDict sec).
Proof.
  intros (dd & Hdd & _)%build_data_document.
  unfold document_data, field in Hdd.
  destruct (getitem payload "ДанныеДокумента") as [[| | | | | |sec]|e]; try discriminate.
  eauto.
Qed.

(** [GET /?type=Invoice&ref=123] against an upstream that answers 200 with
    the document section only: the main page, with the one key
    [document_data]. *)
Example serve_only_document :
  serve "https://dms/api" utf8_console (λ _, Response 200 (Ok only_document))
    {| args := {[ "type" := "Invoice"; "ref" := "123" ]}; headers := ∅ |}
  = Ok {| template := "main_page.html"; context := only_document_data; status := 200 |}.
Proof. vm_compute. reflexivity. Qed.


(** * Further properties of the code *)

(** ** The upstream credentials *)

Lemma b64_bits_char (s5 s4 s3 s2 s1 s0 : bool) :
  b64_bits (b64_char s5 s4 s3 s2 s1 s0) = Some (s5, s4, s3, s2, s1, s0).
Proof. destruct s5, s4, s3, s2, s1, s0; reflexivity. Qed.

Lemma b64_char_not_pad (s5 s4 s3 s2 s1 s0 : bool) :
  Ascii.eqb (b64_char s5 s4 s3 s2 s1 s0) "=" = false.
Proof. destruct s5, s4, s3, s2, s1, s0; reflexivity. Qed.

Lemma b64_roundtrip_groups (s : string) :
  b64decode (b64encode s) = Some s ∧
  (∀ a, b64decode (b64encode (String a s)) = Some (String a s)) ∧
  (∀ a b, b64decode (b64encode (String a (String b s))) = Some (String a (String b s))).
Proof.
  induction s as [|c t (IH0 & IH1 & IH2)].
  - split; [reflexivity|]. split.
    + intros [a0 a1 a2 a3 a4 a5 a6 a7]. cbn [b64encode b64decode].
      rewrite !b64_bits_char. reflexivity.
    + intros [a0 a1 a2 a3 a4 a5 a6 a7] [b0 b1 b2 b3 b4 b5 b6 b7].
      cbn [b64encode b64decode].
      rewrite !b64_bits_char. cbn [mbind option_bind].
      rewrite b64_char_not_pad. reflexivity.
  - split; [apply IH1|]. split; [intros a; apply IH2|].
    intros [a0 a1 a2 a3 a4 a5 a6 a7] [b0 b1 b2 b3 b4 b5 b6 b7].
    destruct c as [c0 c1 c2 c3 c4 c5 c6 c7].
    cbn [b64encode b64decode].
    rewrite !b64_bits_char. cbn [mbind option_bind].
    rewrite b64_char_not_pad, IH0. reflexivity.
Qed.

(** X1.  Decoding what [b64encode] wrote gives the bytes back. *)
Theorem b64_roundtrip (s : string) : b64decode (b64encode s) = Some s.
Proof. apply b64_roundtrip_groups. Qed.

Lemma b64_char_alphabet (s5 s4 s3 s2 s1 s0 : bool) :
  str_mem (b64_char s5 s4 s3 s2 s1 s0) b64_alphabet = true.
Proof. destruct s5, s4, s3, s2, s1, s0; reflexivity. Qed.

Lemma b64encode_shape_groups (s : string) :
  let shape s :=
    String.length (b64encode s) = (4 * ((String.length s + 2) / 3))%nat ∧
    ∀ c, str_mem c (b64encode s) = true → str_mem c (b64_alphabet +:+ "=") = true in
  shape s ∧ (∀ a, shape (String a s)) ∧ (∀ a b, shape (String a (String b s))).
Proof.
  assert (∀ c s5 s4 s3 s2 s1 s0 (rest : string) (P : Prop),
            (str_mem c rest = true → P) →
            (c = b64_char s5 s4 s3 s2 s1 s0 → P) →
            str_mem c (String (b64_char s5 s4 s3 s2 s1 s0) rest) = true → P) as Hcons.
  { intros c s5 s4 s3 s2 s1 s0 rest P Hrest Hhead. cbn [str_mem].
    intros [->%Ascii.eqb_eq|H]%orb_true_iff; auto. }
  assert (∀ c s5 s4 s3 s2 s1 s0, c = b64_char s5 s4 s3 s2 s1 s0 →
            str_mem c (b64_alphabet +:+ "=") = true) as Hin.
  { intros c s5 s4 s3 s2 s1 s0 ->. rewrite str_mem_app, b64_char_alphabet. reflexivity. }
  assert (∀ c rest, str_mem c rest = true → (rest = "=" ∨ rest = "==") →
            str_mem c (b64_alphabet +:+ "=") = true) as Hpad.
  { intros c rest H [-> | ->]; rewrite str_mem_app; apply orb_true_iff; right;
      cbn [str_mem] in *; repeat (apply orb_true_iff in H as [H|H]); try discriminate;
      rewrite H; reflexivity. }
  induction s as [|c t (IH0 & IH1 & IH2)]; cbv zeta in *.
  - split; [split; [reflexivity|discriminate]|]. split.
    + intros [a0 a1 a2 a3 a4 a5 a6 a7]. split; [reflexivity|].
      intros c. cbn [b64encode].
      repeat (apply Hcons; [|apply Hin]). intros H. apply (Hpad c "=="); auto.
    + intros [a0 a1 a2 a3 a4 a5 a6 a7] [b0 b1 b2 b3 b4 b5 b6 b7].
      split; [reflexivity|].
      intros c. cbn [b64encode].
      repeat (apply Hcons; [|apply Hin]). intros H. apply (Hpad c "="); auto.
  - split; [apply IH1|]. split; [intros a; apply IH2|].
    intros [a0 a1 a2 a3 a4 a5 a6 a7] [b0 b1 b2 b3 b4 b5 b6 b7].
    destruct c as [c0 c1 c2 c3 c4 c5 c6 c7]. destruct IH0 as [Hlen Hmem].
    split.
    + cbn [b64encode String.length]. rewrite Hlen.
      replace (S (S (S (String.length t))) + 2)%nat
        with (String.length t + 2 + 1 * 3)%nat by lia.
      rewrite Nat.div_add by lia. lia.
    + intros c. cbn [b64encode].
      repeat (apply Hcons; [|apply Hin]). apply Hmem.
Qed.

(** X2.  [b64encode] writes four characters for every three bytes, the
    last group filled up, and only characters of the base64 alphabet and
    the padding [=]. *)
Theorem b64encode_shape (s : string) :
  String.length (b64encode s) = (4 * ((String.length s + 2) / 3))%nat ∧
  ∀ c, str_mem c (b64encode s) = true → str_mem c (b64_alphabet +:+ "=") = true.
Proof. apply (b64encode_shape_groups s). Qed.




(** ** The locale *)

Lemma str_split_head (sep : ascii) (s : string) :
  ∃ seg segs rest,
    str_split sep s = seg :: segs ∧ str_mem sep seg = false ∧ s = seg +:+ rest.
Proof.
  induction s as [|c t (seg & segs & rest & Hsplit & Hseg & Ht)]; cbn [str_split].
  - exists "", [], "". auto.
  - destruct (Ascii.eqb c sep) eqn:Hc.
    + exists "", (str_split sep t), (String c t). auto.
    + rewrite Hsplit. exists (String c seg), segs, rest.
      split; [reflexivity|]. split; [|rewrite Ht at 1; reflexivity].
      cbn [str_mem]. rewrite Ascii.eqb_sym, Hc. exact Hseg.
Qed.

Lemma str_join_chars (s : string) : str_join (str_chars s) = s.
Proof.
  induction s as [|c t IH]; [reflexivity|]. cbn [str_chars].
  destruct (starts_with_continuation t).
  - destruct (str_chars t) as [|g gs].
    + cbn in IH. subst t. reflexivity.
    + change (str_join (String c g :: gs)) with (String c (str_join (g :: gs))).
      rewrite IH. reflexivity.
  - change (str_join (String c "" :: str_chars t)) with (String c (str_join (str_chars t))).
    rewrite IH. reflexivity.
Qed.

Lemma str_append_assoc (a b c : string) : (a +:+ b) +:+ c = a +:+ (b +:+ c).
Proof.
  induction a as [|x a IH]; [reflexivity|].
  change (String x ((a +:+ b) +:+ c) = String x (a +:+ b +:+ c)). f_equal. exact IH.
Qed.

Lemma str_join_app (l1 l2 : list string) :
  str_join (l1 ++ l2) = str_join l1 +:+ str_join l2.
Proof.
  induction l1 as [|g l1 IH]; [reflexivity|].
  change (str_join ((g :: l1) ++ l2)) with (g +:+ str_join (l1 ++ l2)).
  change (str_join (g :: l1)) with (g +:+ str_join l1).
  rewrite IH, str_append_assoc. reflexivity.
Qed.

Lemma str_slice_to_prefix (n : nat) (s : string) :
  s = str_slice_to n s +:+ str_join (drop n (str_chars s)).
Proof.
  unfold str_slice_to. rewrite <- str_join_app, take_drop. symmetry. apply str_join_chars.
Qed.

Lemma all_ascii_app (a b : string) : all_ascii (a +:+ b) = all_ascii a && all_ascii b.
Proof.
  induction a as [|x a IH]; [reflexivity|].
  change (all_ascii (String x a +:+ b)) with ((N_of_ascii x <? 128)%N && all_ascii (a +:+ b)).
  rewrite IH, andb_assoc. reflexivity.
Qed.

Lemma substring_length_le (n : nat) (s : string) :
  (String.length (substring 0 n s) ≤ n)%nat.
Proof.
  revert n. induction s as [|c t IH]; intros [|n]; cbn; try lia.
  specialize (IH n). lia.
Qed.

(** X4.  The locale of a request is a beginning of its [Accept-Language]
    value (of [en] without the header) and never holds a comma; when the
    value is ASCII it is at most two bytes long. *)
Theorem preferred_language_prefix (inc_req : request) :
  ∃ lang rest,
    preferred_language inc_req = Ok lang ∧
    accept_language inc_req = lang +:+ rest ∧
    str_mem "," lang = false ∧
    (all_ascii (accept_language inc_req) = true → (String.length lang ≤ 2)%nat).
Proof.
  unfold preferred_language, get_user_language, accept_language.
  destruct (str_split_head "," (dict_get_default (headers inc_req) "Accept-Language" "en"))
    as (seg & segs & rest & Hsplit & Hseg & Hh).
  rewrite Hsplit. cbn [list_item lookup list_lookup mbind res_bind mret res_ret].
  pose proof (str_slice_to_prefix 2 seg) as Hprefix.
  exists (str_slice_to 2 seg), (str_join (drop 2 (str_chars seg)) +:+ rest).
  split; [reflexivity|].
  split; [rewrite <- str_append_assoc, <- Hprefix; exact Hh|].
  split.
  - rewrite Hprefix, str_mem_app in Hseg. apply orb_false_elim in Hseg as [H _]. exact H.
  - rewrite Hh, all_ascii_app. intros [Hascii _]%andb_true_iff.
    rewrite str_slice_to_ascii by assumption. apply substring_length_le.
Qed.

(** ** The messages *)

(** X5.  Whatever the code and the locale, the message is not empty: it is
    one of the eight texts of the table or the string [en]. *)
Theorem get_error_messages_range (error_code : Z) (lang : string) :
  ∃ message,
    get_error_messages error_code lang = Ok message ∧
    message ≠ "" ∧
    message ∈ message_texts.
Proof.
  exists (default "en" (table_of error_code !! lang)).
  split; [apply get_error_messages_eq|].
  rewrite table_of_lookup. unfold table_of.
  repeat case_decide; subst; (split; [discriminate|decide_elem]).
Qed.

(** ** [quote] *)

(** X6.  [quote] tells values apart: different values are written
    differently. *)
Theorem quote_injective (s1 s2 : string) : s1 ≠ s2 → quote s1 ≠ quote s2.
Proof.
  intros Hne Heq. apply Hne.
  rewrite <- (unquote_quote s1), Heq. apply unquote_quote.
Qed.

Lemma quote_injective_witness : quote "A/B" ≠ quote "A%2FB".
Proof. apply quote_injective. discriminate. Defined.

(** X7.  Quoting goes byte by byte: a concatenation is quoted as the
    concatenation of the quoted parts. *)
Theorem quote_app (s1 s2 : string) : quote (s1 +:+ s2) = quote s1 +:+ quote s2.
Proof.
  unfold quote. induction s1 as [|b t IH]; [reflexivity|].
  change (quote_from_bytes (String b t +:+ s2) "/")
    with (quoter "/" b +:+ quote_from_bytes (t +:+ s2) "/").
  change (quote_from_bytes (String b t) "/")
    with (quoter "/" b +:+ quote_from_bytes t "/").
  rewrite IH, str_append_assoc. reflexivity.
Qed.

Lemma str_length_app (a b : string) :
  String.length (a +:+ b) = (String.length a + String.length b)%nat.
Proof.
  induction a as [|x a IH]; [reflexivity|].
  change (String.length (String x a +:+ b)) with (S (String.length (a +:+ b))).
  rewrite IH. reflexivity.
Qed.

Lemma quoter_length (b : ascii) :
  String.length (quoter "/" b) = (1 + 2 * (if is_safe b then 0 else 1))%nat.
Proof. unfold quoter, is_safe. destruct (str_mem b _); reflexivity. Qed.

Lemma quote_length (s : string) :
  String.length (quote s) = (String.length s + 2 * unsafe_count s)%nat.
Proof.
  unfold quote. induction s as [|b t IH]; [reflexivity|].
  change (quote_from_bytes (String b t) "/")
    with (quoter "/" b +:+ quote_from_bytes t "/").
  rewrite str_length_app, quoter_length, IH. cbn [String.length unsafe_count]. lia.
Qed.

(** X8.  A quoted value is longer than the value by two bytes for each
    byte outside the safe set (letters, digits, [_.-~] and [/]), so at most
    three times as long, and [quote] leaves a value as it is exactly when
    all its bytes are safe. *)
Theorem quote_growth (s : string) :
  String.length (quote s) = (String.length s + 2 * unsafe_count s)%nat ∧
  (String.length (quote s) ≤ 3 * String.length s)%nat ∧
  (quote s = s ↔ unsafe_count s = 0%nat).
Proof.
  split; [apply quote_length|]. split.
  - rewrite quote_length.
    assert (unsafe_count s ≤ String.length s)%nat as H; [|lia].
    induction s as [|b t IH]; cbn [unsafe_count String.length]; [lia|].
    destruct (is_safe b); lia.
  - split.
    + intros Heq. pose proof (quote_length s) as Hlen. rewrite Heq in Hlen. lia.
    + unfold quote. induction s as [|b t IH]; [reflexivity|].
      cbn [unsafe_count]. intros Hcount.
      change (quote_from_bytes (String b t) "/")
        with (quoter "/" b +:+ quote_from_bytes t "/").
      unfold quoter. unfold is_safe in Hcount.
      destruct (str_mem b (always_safe +:+ "/")); [|discriminate].
      rewrite IH by exact Hcount. reflexivity.
Qed.

Lemma quoter_ascii (b : ascii) : all_ascii (quoter "/" b) = true.
Proof. destruct b as [[] [] [] [] [] [] [] []]; reflexivity. Qed.

(** X9.  A quoted value is ASCII and holds none of the characters that
    delimit a query string ([&], [=], [#], [?]), no [+] and no space. *)
Theorem quote_no_delimiter (s : string) :
  all_ascii (quote s) = true ∧
  ∀ c, str_mem c "&=#?+ " = true → str_mem c (quote s) = false.
Proof.
  split.
  - unfold quote. induction s as [|b t IH]; [reflexivity|].
    change (quote_from_bytes (String b t) "/")
      with (quoter "/" b +:+ quote_from_bytes t "/").
    rewrite all_ascii_app, quoter_ascii, IH. reflexivity.
  - intros c Hc. apply quote_free. cbn [str_mem] in Hc.
    repeat (apply orb_true_iff in Hc as [->%Ascii.eqb_eq|Hc]; [reflexivity|]).
    discriminate.
Qed.

(** ** The mapper's failures *)

Lemma raises_only_bind {A B} (m : res A) (k : A → res B) :
  raises_only m → (∀ a, raises_only (k a)) → raises_only (m ≫= k).
Proof.
  intros Hm Hk e. destruct m as [a|e']; cbn [mbind res_bind].
  - apply Hk.
  - intros [= <-]. apply Hm. reflexivity.
Qed.

Lemma raises_only_Ok {A} (a : A) : raises_only (Ok a).
Proof. intros e [=]. Qed.

Lemma raises_only_fmap {A B} (f : A → B) (m : res A) :
  raises_only m → raises_only (f <$> m).
Proof. intros Hm e. destruct m; [intros [=]|]. intros [= <-]. apply Hm. reflexivity. Qed.

Lemma raises_only_getitem (v : value) (k : string) : raises_only (getitem v k).
Proof.
  intros e. destruct v; cbn [getitem]; try (intros [= <-]; exact I).
  destruct (dict_lookup _ _); intros [= <-]. exact I.
Qed.

Lemma raises_only_field (v : value) (section name : string) :
  raises_only (field v section name).
Proof.
  apply raises_only_bind; [apply raises_only_getitem|intros; apply raises_only_getitem].
Qed.

Lemma raises_only_get_or (v : value) (k : string) (dflt : value) :
  raises_only (get_or v k dflt).
Proof. intros e. destruct v; intros [= <-]; exact I. Qed.

Lemma raises_only_items (v : value) : raises_only (items v).
Proof. intros e. destruct v; intros [= <-]; exact I. Qed.

Lemma raises_only_iterate (v : value) : raises_only (iterate v).
Proof. intros e. destruct v; intros [= <-]; exact I. Qed.

Ltac raises_only_steps :=
  repeat first
    [ apply raises_only_Ok
    | apply raises_only_field
    | apply raises_only_getitem
    | apply raises_only_get_or
    | apply raises_only_items
    | apply raises_only_iterate
    | apply raises_only_bind; [|intros ?] ].

Lemma raises_only_attached_files_loop (entries : list (key * value)) :
  ∀ acc, raises_only (attached_files_loop entries acc).
Proof.
  induction entries as [|[file file_data] rest IH]; intros acc; cbn [attached_files_loop].
  - apply raises_only_Ok.
  - apply raises_only_bind; [|intros cor; apply IH].
    unfold cor_file_data. raises_only_steps.
Qed.

Lemma raises_only_approvement_loop (persons : list value) :
  ∀ index acc, raises_only (approvement_loop index persons acc).
Proof.
  induction persons as [|person rest IH]; intros index acc; cbn [approvement_loop].
  - apply raises_only_Ok.
  - apply raises_only_bind; [|intros entry; apply IH].
    unfold approvement_entry. raises_only_steps.
Qed.

Lemma raises_only_add_section (sections : list (key * value)) (section name : string)
    (build : res value) (data : list (key * value)) :
  raises_only build → raises_only (add_section sections section name build data).
Proof.
  intros Hbuild. unfold add_section. destruct (dict_contains _ _).
  - apply raises_only_bind; [exact Hbuild|intros; apply raises_only_Ok].
  - apply raises_only_Ok.
Qed.

(** The loop of line 160 ends when the standard output takes every item,
    and raises [UnicodeEncodeError] at the first one it does not take. *)
Lemma print_loop_printable (stdout : console) (entries : list (key * value)) :
  print_loop stdout entries
  = if printable stdout entries then Ok () else Raise UnicodeEncodeError.
Proof.
  induction entries as [|[k v] rest IH]; [reflexivity|].
  cbn [print_loop printable forallb fst snd]. unfold print.
  destruct (stdout k v); cbn [mbind res_bind andb]; [exact IH|reflexivity].
Qed.

(** When the mapper raises, it is at a subscript, an attribute access or
    an iteration, or at [print] on an item that the standard output cannot
    write. *)
Lemma build_data_raises (stdout : console) (payload : value) (e : exn) :
  build_data stdout payload = Raise e → mapper_error e ∨ print_error stdout payload e.
Proof.
  unfold build_data. destruct payload as [| | | | | |d];
    try (intros [= <-]; left; exact I).
  cbn [items mbind res_bind]. rewrite print_loop_printable.
  destruct (printable stdout d) eqn:Hd; cbn [mbind res_bind].
  - intros Hraise. left. revert e Hraise.
    match goal with |- ∀ e, ?r = Raise e → mapper_error e => change (raises_only r) end.
    apply raises_only_bind; [unfold document_data; raises_only_steps|intros dd].
    apply raises_only_bind; [|intros data1].
    { apply raises_only_add_section. unfold sign_data. raises_only_steps. }
    apply raises_only_bind; [|intros data2].
    { apply raises_only_add_section. unfold attached_files.
      apply raises_only_bind; [apply raises_only_getitem|intros sec].
      apply raises_only_bind; [apply raises_only_items|intros entries].
      apply raises_only_fmap, raises_only_attached_files_loop. }
    apply raises_only_bind; [|intros data3].
    { apply raises_only_add_section. unfold approvement_data.
      apply raises_only_bind; [apply raises_only_getitem|intros sec].
      apply raises_only_bind; [apply raises_only_iterate|intros persons].
      apply raises_only_fmap, raises_only_approvement_loop. }
    apply raises_only_add_section. unfold qr_data. raises_only_steps.
  - intros [= <-]. right. split; [reflexivity|]. exists d. split; [reflexivity|exact Hd].
Qed.

(** None of these is the application's own exception. *)
Lemma build_data_raises_not_custom (stdout : console) (payload : value) (e : exn) :
  build_data stdout payload = Raise e → is_custom_error e = false.
Proof.
  intros [He|[-> _]]%build_data_raises; [|reflexivity].
  destruct e; try reflexivity; destruct He.
Qed.

(** What the view makes of an answer with status 200. *)
Lemma run_status_200
    (req_base_url : string) (stdout : console) (out_req : string → reply) (inc_req : request)
    (url : string) (json : res value) :
  url ∈ calls (get_doc req_base_url stdout inc_req) →
  out_req url = Response 200 json →
  run out_req (get_doc req_base_url stdout inc_req)
  = (request_data ← json; data ← build_data stdout request_data; Ok (main_page data)).
Proof.
  intros Hurl Hreply.
  destruct (get_doc_calls _ _ _ _ Hurl) as (lang & _ & Hdoc).
  rewrite Hdoc. cbn [run]. rewrite Hreply. reflexivity.
Qed.

(** X10.  When the upstream answers 200 and the mapper raises on the
    payload, the exception is a [KeyError], a [TypeError] or an
    [AttributeError], or it is the [UnicodeEncodeError] of [print] on a
    payload with an item that the standard output cannot write; it leaves
    the view as it is: no error page is made of it. *)
Theorem mapper_failure_unhandled
    (req_base_url : string) (stdout : console) (out_req : string → reply) (inc_req : request)
    (url : string) (payload : value) (e : exn) :
  url ∈ calls (get_doc req_base_url stdout inc_req) →
  out_req url = Response 200 (Ok payload) →
  build_data stdout payload = Raise e →
  (mapper_error e ∨ print_error stdout payload e) ∧
  serve req_base_url stdout out_req inc_req = Raise e.
Proof.
  intros Hurl Hreply Hraise.
  split; [exact (build_data_raises _ _ _ Hraise)|].
  pose proof (build_data_raises_not_custom _ _ _ Hraise) as He.
  unfold serve. rewrite (run_status_200 _ _ _ _ _ _ Hurl Hreply).
  cbn [mbind res_bind]. rewrite Hraise. cbn [mbind res_bind].
  destruct e; try reflexivity. discriminate He.
Qed.

Lemma mapper_failure_unhandled_witness :
  (mapper_error (KeyError (KStr "Наименование")) ∨
   print_error utf8_console empty_document (KeyError (KStr "Наименование"))) ∧
  serve "https://dms/api" utf8_console (λ _, Response 200 (Ok empty_document)) ru_request
  = Raise (KeyError (KStr "Наименование")).
Proof.
  apply (mapper_failure_unhandled "https://dms/api" utf8_console
           (λ _, Response 200 (Ok empty_document))
           ru_request "https://dms/api?type=Invoice&ref=A/B" empty_document).
  - apply list_elem_of_singleton. reflexivity.
  - reflexivity.
  - reflexivity.
Defined.

(** X11.  A payload that is not an object stops the mapper with
    [AttributeError], before anything is printed.  An object without the
    document section stops it with [KeyError] for that section when the
    standard output takes all its items, and with the [UnicodeEncodeError]
    of [print] otherwise, whatever else the object holds. *)
Theorem payload_without_document (stdout : console) :
  (∀ v, is_dict v = false → build_data stdout v = Raise AttributeError) ∧
  (∀ sections, dict_lookup (KStr "ДанныеДокумента") sections = None →
     build_data stdout (VDict sections)
     = if printable stdout sections
       then Raise (KeyError (KStr "ДанныеДокумента"))
       else Raise UnicodeEncodeError).
Proof.
  split.
  - intros v Hv. destruct v; try reflexivity. discriminate Hv.
  - intros sections Hnone. unfold build_data, document_data, field.
    cbn [items getitem mbind res_bind]. rewrite print_loop_printable, Hnone.
    destruct (printable stdout sections); reflexivity.
Qed.

(** X21.  When the upstream answers 200 with an object that has an item
    the standard output cannot write, [print] raises [UnicodeEncodeError]
    before any section is read, whatever the sections hold, and the
    exception leaves the view as it is.  On a UTF-8 standard output a
    top-level key or string value that holds a lone surrogate is such an
    item. *)
Theorem print_failure_unhandled
    (req_base_url : string) (stdout : console) (out_req : string → reply) (inc_req : request)
    (url : string) (sections : list (key * value)) :
  url ∈ calls (get_doc req_base_url stdout inc_req) →
  out_req url = Response 200 (Ok (VDict sections)) →
  printable stdout sections = false →
  build_data stdout (VDict sections) = Raise UnicodeEncodeError ∧
  serve req_base_url stdout out_req inc_req = Raise UnicodeEncodeError ∧
  (∀ k s, has_surrogate s = true →
     utf8_console (KStr s) (VStr k) = false ∧ utf8_console (KStr k) (VStr s) = false).
Proof.
  intros Hurl Hreply Hprint.
  assert (build_data stdout (VDict sections) = Raise UnicodeEncodeError) as Hraise.
  { unfold build_data. cbn [items mbind res_bind].
    rewrite print_loop_printable, Hprint. reflexivity. }
  split; [exact Hraise|]. split.
  - unfold serve. rewrite (run_status_200 _ _ _ _ _ _ Hurl Hreply).
    cbn [mbind res_bind]. rewrite Hraise. reflexivity.
  - intros k s Hs. unfold utf8_console. rewrite Hs.
    split; [reflexivity|apply andb_false_r].
Qed.

Lemma print_failure_unhandled_witness :
  build_data utf8_console complete_document = Ok complete_document_data ∧
  build_data utf8_console document_with_surrogate = Raise UnicodeEncodeError ∧
  serve "https://dms/api" utf8_console (λ _, Response 200 (Ok document_with_surrogate))
    ru_request
  = Raise UnicodeEncodeError.
Proof.
  split; [vm_compute; reflexivity|].
  destruct (print_failure_unhandled "https://dms/api" utf8_console
              (λ _, Response 200 (Ok document_with_surrogate)) ru_request
              "https://dms/api?type=Invoice&ref=A/B"
              (sections_of document_with_surrogate)) as (Hraise & Hserve & _).
  - apply list_elem_of_singleton. reflexivity.
  - reflexivity.
  - vm_compute. reflexivity.
  - split; [exact Hraise|exact Hserve].
Defined.

(** ** The signature, file and QR sections *)

Lemma build_data_sign (stdout : console) (payload : value) (data : list (key * value)) :
  build_data stdout payload = Ok data →
  section_present payload "ДанныеПодписи" = true →
  ∃ v, sign_data payload = Ok v ∧ dict_lookup (KStr "sign_data") data = Some v.
Proof.
  intros (dd & _ & H1 & _ & _ & _ & ->)%build_data_inv Hp.
  destruct (H1 Hp) as [v Hv]. exists v. split; [exact Hv|].
  unfold section_entry. rewrite Hp, Hv. reflexivity.
Qed.

Lemma build_data_files (stdout : console) (payload : value) (data : list (key * value)) :
  build_data stdout payload = Ok data →
  section_present payload "ДанныеФайлов" = true →
  ∃ v, attached_files payload = Ok v ∧ dict_lookup (KStr "attached_files") data = Some v.
Proof.
  intros (dd & _ & H1 & H2 & _ & _ & ->)%build_data_inv Hp.
  destruct (H2 Hp) as [v Hv]. exists v. split; [exact Hv|].
  unfold section_entry. rewrite Hp, Hv.
  destruct (section_present payload "ДанныеПодписи");
    [destruct (H1 eq_refl) as [? ->]|]; reflexivity.
Qed.

Lemma build_data_qr (stdout : console) (payload : value) (data : list (key * value)) :
  build_data stdout payload = Ok data →
  section_present payload "ДанныеQR" = true →
  ∃ v, qr_data payload = Ok v ∧ dict_lookup (KStr "qr_data") data = Some v.
Proof.
  intros (dd & _ & H1 & H2 & H3 & H4 & ->)%build_data_inv Hp.
  destruct (H4 Hp) as [v Hv]. exists v. split; [exact Hv|].
  unfold section_entry. rewrite Hp, Hv.
  destruct (section_present payload "ДанныеПодписи");
    [destruct (H1 eq_refl) as [? ->]|];
    (destruct (section_present payload "ДанныеФайлов");
     [destruct (H2 eq_refl) as [? ->]|]);
    (destruct (section_present payload "ДанныеВизСогласования");
     [destruct (H3 eq_refl) as [? ->]|]); reflexivity.
Qed.

(** X12.  When the signature section is an object, a produced model holds
    under [sign_data] its seven fields under their new names: who signed,
    the signature date, the start and the end of validity, the issuer, the
    holder and the public key. *)
Theorem sign_data_fields (stdout : console) (payload : value) (data sec : list (key * value)) :
  build_data stdout payload = Ok data →
  getitem payload "ДанныеПодписи" = Ok (VDict sec) →
  ∃ signed_by sign_date start_time end_time provider receiver open_key,
    dict_lookup (KStr "УстановившийПодпись") sec = Some signed_by ∧
    dict_lookup (KStr "ДатаПодписи") sec = Some sign_date ∧
    dict_lookup (KStr "ДатаНачала") sec = Some start_time ∧
    dict_lookup (KStr "ДатаОкончания") sec = Some end_time ∧
    dict_lookup (KStr "КемВыдан") sec = Some provider ∧
    dict_lookup (KStr "КомуВыдан") sec = Some receiver ∧
    dict_lookup (KStr "ОткрытыйКлюч") sec = Some open_key ∧
    dict_lookup (KStr "sign_data") data
    = Some (sign_record signed_by sign_date start_time end_time provider receiver open_key).
Proof.
  intros Hdata Hsec.
  destruct (build_data_sign _ _ _ Hdata (getitem_present _ _ _ Hsec)) as (v & Hv & Hlookup).
  unfold sign_data in Hv.
  apply bind_Ok_inv in Hv as (open_key & Hk%(field_dict _ _ _ _ _ Hsec) & Hv).
  apply bind_Ok_inv in Hv as (signed_by & Hby%(field_dict _ _ _ _ _ Hsec) & Hv).
  apply bind_Ok_inv in Hv as (sign_date & Hdate%(field_dict _ _ _ _ _ Hsec) & Hv).
  apply bind_Ok_inv in Hv as (start_time & Hstart%(field_dict _ _ _ _ _ Hsec) & Hv).
  apply bind_Ok_inv in Hv as (end_time & Hend%(field_dict _ _ _ _ _ Hsec) & Hv).
  apply bind_Ok_inv in Hv as (provider & Hprov%(field_dict _ _ _ _ _ Hsec) & Hv).
  apply bind_Ok_inv in Hv as (receiver & Hrecv%(field_dict _ _ _ _ _ Hsec) & Hv).
  injection Hv as <-.
  exists signed_by, sign_date, start_time, end_time, provider, receiver, open_key.
  repeat (split; [assumption|]). exact Hlookup.
Qed.

Lemma sign_data_fields_witness :
  dict_lookup (KStr "sign_data") signed_document_data
  = Some (sign_record (VStr "Signer") (VStr "2024-05-19") (VStr "2024-01-01")
            (VStr "2025-01-01") (VStr "CA") (VStr "Signer") (VStr "30 82 01 0a")).
Proof.
  destruct (sign_data_fields utf8_console signed_document signed_document_data
              [(KStr "УстановившийПодпись", VStr "Signer");
               (KStr "ДатаПодписи", VStr "2024-05-19");
               (KStr "ДатаНачала", VStr "2024-01-01");
               (KStr "ДатаОкончания", VStr "2025-01-01");
               (KStr "КемВыдан", VStr "CA");
               (KStr "КомуВыдан", VStr "Signer");
               (KStr "ОткрытыйКлюч", VStr "30 82 01 0a")])
    as (v1 & v2 & v3 & v4 & v5 & v6 & v7 & H1 & H2 & H3 & H4 & H5 & H6 & H7 & H);
    [vm_compute; reflexivity | reflexivity |].
  vm_compute in H1, H2, H3, H4, H5, H6, H7.
  injection H1 as <-. injection H2 as <-. injection H3 as <-. injection H4 as <-.
  injection H5 as <-. injection H6 as <-. injection H7 as <-. exact H.
Defined.

(** X13.  When the QR section is an object, a produced model holds under
    [qr_data] the binary QR code and the original link of the section. *)
Theorem qr_data_fields (stdout : console) (payload : value) (data sec : list (key * value)) :
  build_data stdout payload = Ok data →
  getitem payload "ДанныеQR" = Ok (VDict sec) →
  ∃ qr_binary qr_link,
    dict_lookup (KStr "ДвоичныеДанныеQRКода") sec = Some qr_binary ∧
    dict_lookup (KStr "ОригиналСсылки") sec = Some qr_link ∧
    dict_lookup (KStr "qr_data") data = Some (qr_record qr_binary qr_link).
Proof.
  intros Hdata Hsec.
  destruct (build_data_qr _ _ _ Hdata (getitem_present _ _ _ Hsec)) as (v & Hv & Hlookup).
  unfold qr_data in Hv.
  apply bind_Ok_inv in Hv as (qr_binary & Hb%(field_dict _ _ _ _ _ Hsec) & Hv).
  apply bind_Ok_inv in Hv as (qr_link & Hl%(field_dict _ _ _ _ _ Hsec) & Hv).
  injection Hv as <-. exists qr_binary, qr_link. auto.
Qed.

Lemma qr_data_fields_witness :
  dict_lookup (KStr "qr_data") signed_document_data
  = Some (qr_record (VStr "iVBORw0KGgo=") (VStr "https://dms/doc/123")).
Proof.
  destruct (qr_data_fields utf8_console signed_document signed_document_data
              [(KStr "ДвоичныеДанныеQRКода", VStr "iVBORw0KGgo=");
               (KStr "ОригиналСсылки", VStr "https://dms/doc/123")])
    as (v1 & v2 & H1 & H2 & H); [vm_compute; reflexivity | reflexivity |].
  vm_compute in H1, H2. injection H1 as <-. injection H2 as <-. exact H.
Defined.

Lemma cor_file_data_inv (file_data cor : value) :
  cor_file_data file_data = Ok cor →
  ∃ name sign_date signed_by attached_by,
    getitem file_data "ПрикреплённыйФайл" = Ok name ∧
    getitem file_data "ДатаПодписи" = Ok sign_date ∧
    getitem file_data "УстановившийПодпись" = Ok signed_by ∧
    getitem file_data "ПрикрепившийФайл" = Ok attached_by ∧
    cor = file_record name sign_date signed_by attached_by.
Proof.
  unfold cor_file_data. intros H.
  apply bind_Ok_inv in H as (name & Hn & H).
  apply bind_Ok_inv in H as (sign_date & Hd & H).
  apply bind_Ok_inv in H as (signed_by & Hs & H).
  apply bind_Ok_inv in H as (attached_by & Ha & H).
  injection H as <-. exists name, sign_date, signed_by, attached_by. auto.
Qed.

(** The loop appends one record for each entry, under the entry's key, as
    long as the keys are distinct and free in the dictionary it starts
    from. *)
Lemma attached_files_loop_inv (entries : list (key * value)) :
  ∀ acc m,
    NoDup (dict_keys entries) →
    (∀ k, k ∈ dict_keys entries → dict_lookup k acc = None) →
    attached_files_loop entries acc = Ok m →
    ∃ records,
      Forall2 (λ entry record, record.1 = entry.1 ∧ cor_file_data entry.2 = Ok record.2)
        entries records ∧
      m = acc ++ records.
Proof.
  induction entries as [|[file file_data] rest IH]; intros acc m Hnodup Hfree;
    cbn [attached_files_loop].
  - intros [= <-]. exists []. split; [constructor|]. rewrite app_nil_r. reflexivity.
  - unfold dict_keys in *. rewrite fmap_cons in Hnodup, Hfree. cbn [fst] in *.
    apply NoDup_cons in Hnodup as [Hfile Hnodup].
    destruct (cor_file_data file_data) as [cor|e] eqn:Hcor; [|discriminate].
    cbn [mbind res_bind].
    rewrite dict_set_fresh by (apply Hfree; left).
    intros Hloop. apply IH in Hloop as (records & Hall & ->); [|exact Hnodup|].
    + exists ((file, cor) :: records). split.
      * constructor; [split; [reflexivity|exact Hcor]|exact Hall].
      * rewrite <- app_assoc. reflexivity.
    + intros k Hk. rewrite dict_lookup_app_None by (apply Hfree; right; exact Hk).
      cbn [dict_lookup]. rewrite decide_False; [reflexivity|].
      intros ->. contradiction.
Qed.

Lemma dict_lookup_NoDup {V} (d : list (key * V)) (k : key) (v : V) :
  NoDup (dict_keys d) → (k, v) ∈ d → dict_lookup k d = Some v.
Proof.
  unfold dict_keys. induction d as [|[k' v'] d IH]; [intros _ []%elem_of_nil|].
  rewrite fmap_cons. cbn [fst dict_lookup].
  intros [Hk' Hnodup]%NoDup_cons [[= -> ->]|Hin]%elem_of_cons.
  - rewrite decide_True by reflexivity. reflexivity.
  - destruct (decide (k = k')) as [->|Hne]; [|auto].
    destruct Hk'. apply list_elem_of_fmap. exists (k', v). auto.
Qed.

(** X14.  When the files section is an object (its keys distinct, as those
    of a parsed object are), a produced model holds under [attached_files]
    a dictionary with the same keys in the same order, each file's key
    holding the file name, the signature date, the signer and the attacher
    of its entry. *)
Theorem attached_files_keys (stdout : console) (payload : value) (data files : list (key * value)) :
  build_data stdout payload = Ok data →
  getitem payload "ДанныеФайлов" = Ok (VDict files) →
  NoDup (dict_keys files) →
  ∃ m : list (key * value),
    dict_lookup (KStr "attached_files") data = Some (VDict m) ∧
    dict_keys m = dict_keys files ∧
    ∀ (file : key) (file_data : value),
      (file, file_data) ∈ files →
      ∃ name sign_date signed_by attached_by,
        getitem file_data "ПрикреплённыйФайл" = Ok name ∧
        getitem file_data "ДатаПодписи" = Ok sign_date ∧
        getitem file_data "УстановившийПодпись" = Ok signed_by ∧
        getitem file_data "ПрикрепившийФайл" = Ok attached_by ∧
        dict_lookup file m = Some (file_record name sign_date signed_by attached_by).
Proof.
  intros Hdata Hsec Hnodup.
  destruct (build_data_files _ _ _ Hdata (getitem_present _ _ _ Hsec)) as (v & Hv & Hlookup).
  unfold attached_files in Hv. rewrite Hsec in Hv. cbn [mbind res_bind items] in Hv.
  destruct (attached_files_loop files []) as [m|e] eqn:Hloop; [|discriminate].
  injection Hv as <-. exists m. split; [exact Hlookup|].
  apply attached_files_loop_inv in Hloop as (records & Hall & ->);
    [|exact Hnodup|reflexivity].
  cbn [app].
  assert (dict_keys records = dict_keys files) as Hkeys.
  { unfold dict_keys. clear -Hall.
    induction Hall as [|entry record files records [Hk _] _ IH]; [reflexivity|].
    rewrite !fmap_cons, Hk, IH. reflexivity. }
  split; [exact Hkeys|].
  intros file file_data Hin.
  apply list_elem_of_lookup in Hin as [i Hi].
  destruct (Forall2_lookup_l _ _ _ _ _ Hall Hi) as ([file' cor] & Hri & Hfile & Hcor).
  cbn [fst snd] in Hfile, Hcor. subst file'.
  apply cor_file_data_inv in Hcor
    as (name & sign_date & signed_by & attached_by & ? & ? & ? & ? & ->).
  exists name, sign_date, signed_by, attached_by.
  repeat (split; [assumption|]).
  apply dict_lookup_NoDup; [rewrite Hkeys; exact Hnodup|].
  apply list_elem_of_lookup. eauto.
Qed.

Lemma attached_files_keys_witness :
  ∃ m, dict_lookup (KStr "attached_files") document_with_files_data = Some (VDict m) ∧
       dict_keys m = [KStr "f-2"; KStr "f-1"].
Proof.
  destruct (attached_files_keys utf8_console document_with_files document_with_files_data
              document_files) as (m & Hm & Hkeys & _).
  - vm_compute. reflexivity.
  - reflexivity.
  - apply (bool_decide_unpack _). vm_compute. exact I.
  - exists m. split; [exact Hm|exact Hkeys].
Defined.

Lemma getitem_not_dict (v : value) (k : string) :
  is_dict v = false → getitem v k = Raise TypeError.
Proof. destruct v; [reflexivity..|discriminate]. Qed.

(** X15.  A document, signature, file or QR section that is present but
    is not an object ([null], a list, a string, a number) is not skipped:
    the mapper raises, at a subscript, an attribute access or an iteration
    or, when the standard output cannot write an item of the payload, at
    [print]. *)
Theorem section_not_object (stdout : console) (payload : value) (section : string) (v : value) :
  section ∈ ["ДанныеДокумента"; "ДанныеПодписи"; "ДанныеФайлов"; "ДанныеQR"] →
  getitem payload section = Ok v →
  is_dict v = false →
  ∃ e, build_data stdout payload = Raise e ∧
       (mapper_error e ∨ print_error stdout payload e).
Proof.
  intros Hsection Hsec Hv.
  destruct (not_Ok_Raise (build_data stdout payload)) as [e He];
    [|exists e; split; [exact He|exact (build_data_raises _ _ _ He)]].
  intros data Hdata.
  pose proof (getitem_present _ _ _ Hsec) as Hp.
  apply build_data_inv in Hdata as (dd & Hdd & H1 & H2 & _ & H4 & _).
  repeat (apply elem_of_cons in Hsection as [->|Hsection]).
  - unfold document_data, field in Hdd. rewrite Hsec in Hdd. cbn [mbind res_bind] in Hdd.
    rewrite !getitem_not_dict in Hdd by exact Hv. cbn [mbind res_bind] in Hdd.
    discriminate.
  - destruct (H1 Hp) as [sd Hsd]. unfold sign_data, field in Hsd.
    rewrite Hsec in Hsd. cbn [mbind res_bind] in Hsd.
    rewrite !getitem_not_dict in Hsd by exact Hv. cbn [mbind res_bind] in Hsd.
    discriminate.
  - destruct (H2 Hp) as [af Haf]. unfold attached_files in Haf.
    rewrite Hsec in Haf. cbn [mbind res_bind] in Haf.
    destruct v; discriminate.
  - destruct (H4 Hp) as [qr Hqr]. unfold qr_data, field in Hqr.
    rewrite Hsec in Hqr. cbn [mbind res_bind] in Hqr.
    rewrite !getitem_not_dict in Hqr by exact Hv. cbn [mbind res_bind] in Hqr.
    discriminate.
  - apply elem_of_nil in Hsection. contradiction.
Qed.

Lemma section_not_object_witness :
  ∃ e, build_data utf8_console document_with_null_signature = Raise e ∧
       (mapper_error e ∨ print_error utf8_console document_with_null_signature e).
Proof.
  apply (section_not_object utf8_console document_with_null_signature "ДанныеПодписи" VNone).
  - decide_elem.
  - reflexivity.
  - reflexivity.
Defined.

Lemma str_chars_not_nil (s : string) : s ≠ "" → str_chars s ≠ [].
Proof.
  destruct s as [|c t]; [contradiction|]. intros _. cbn [str_chars].
  destruct (starts_with_continuation t); [destruct (str_chars t)|]; discriminate.
Qed.

(** X16.  What the approval loop makes of a section that is not a list of
    objects: an empty list, an empty object and an empty string all give an
    empty [approvement_data]; an object or a string that is not empty
    raises [TypeError] at its first key or character; [null], a boolean
    and a number raise [TypeError], not being iterable. *)
Theorem approvement_data_iteration (payload v : value) :
  getitem payload "ДанныеВизСогласования" = Ok v →
  (v ∈ [VList []; VDict []; VStr ""] → approvement_data payload = Ok (VDict [])) ∧
  (∀ k x d, v = VDict ((k, x) :: d) → approvement_data payload = Raise TypeError) ∧
  (∀ s, v = VStr s → s ≠ "" → approvement_data payload = Raise TypeError) ∧
  (v = VNone ∨ (∃ b, v = VBool b) ∨ (∃ z, v = VInt z) ∨ (∃ bits, v = VFloat bits) →
     approvement_data payload = Raise TypeError).
Proof.
  intros Hsec. unfold approvement_data. rewrite Hsec. cbn [mbind res_bind].
  split; [|split; [|split]].
  - intros Hv. repeat (apply elem_of_cons in Hv as [->|Hv]); try reflexivity.
    apply elem_of_nil in Hv. contradiction.
  - intros k x d ->. destruct k; reflexivity.
  - intros s -> Hs. cbn [iterate mbind res_bind].
    destruct (str_chars s) as [|g gs] eqn:E; [destruct (str_chars_not_nil s Hs E)|].
    reflexivity.
  - intros [-> | [[b ->] | [[z ->] | [bits ->]]]]; reflexivity.
Qed.

Lemma approvement_data_iteration_witness :
  approvement_data document_with_empty_approvals = Ok (VDict []).
Proof.
  apply (approvement_data_iteration document_with_empty_approvals (VDict []));
    [reflexivity|]. apply elem_of_cons; right. apply elem_of_cons; left. reflexivity.
Defined.

(** X17.  Apart from the [print] of line 160, the mapper reads a payload
    through its five sections only: objects that agree on them, and whose
    items the standard output takes alike, are mapped alike, whatever the
    order of their keys and whatever else they hold. *)
Theorem build_data_sections_only (stdout : console) (s1 s2 : list (key * value)) :
  (∀ section name, (section, name) ∈ section_names →
     dict_lookup (KStr section) s1 = dict_lookup (KStr section) s2) →
  printable stdout s1 = printable stdout s2 →
  build_data stdout (VDict s1) = build_data stdout (VDict s2).
Proof.
  intros Hsame Hprint.
  assert (∀ section name, (section, name) ∈ section_names →
            getitem (VDict s1) section = getitem (VDict s2) section) as Hget.
  { intros section name Hin. cbn [getitem]. rewrite (Hsame _ _ Hin). reflexivity. }
  assert (∀ section name, (section, name) ∈ section_names →
            dict_contains (KStr section) s1 = dict_contains (KStr section) s2) as Hin.
  { intros section name Hin. unfold dict_contains. rewrite (Hsame _ _ Hin). reflexivity. }
  unfold build_data, add_section, document_data, sign_data, attached_files,
    approvement_data, qr_data, field.
  cbn [items mbind res_bind]. rewrite !print_loop_printable, Hprint.
  rewrite (Hget "ДанныеДокумента" "document_data") by decide_elem.
  rewrite (Hget "ДанныеПодписи" "sign_data") by decide_elem.
  rewrite (Hget "ДанныеФайлов" "attached_files") by decide_elem.
  rewrite (Hget "ДанныеВизСогласования" "approvement_data") by decide_elem.
  rewrite (Hget "ДанныеQR" "qr_data") by decide_elem.
  rewrite (Hin "ДанныеПодписи" "sign_data") by decide_elem.
  rewrite (Hin "ДанныеФайлов" "attached_files") by decide_elem.
  rewrite (Hin "ДанныеВизСогласования" "approvement_data") by decide_elem.
  rewrite (Hin "ДанныеQR" "qr_data") by decide_elem.
  reflexivity.
Qed.

Lemma build_data_sections_only_witness :
  build_data utf8_console (VDict shuffled_sections) = build_data utf8_console signed_document.
Proof.
  apply (build_data_sections_only utf8_console shuffled_sections (sections_of signed_document)).
  - intros section name Hin. unfold section_names in Hin.
    repeat (apply elem_of_cons in Hin as [[= -> ->]|Hin]; [reflexivity|]).
    apply elem_of_nil in Hin. contradiction.
  - vm_compute. reflexivity.
Defined.

(** ** The view and the error handler *)

(** X18.  Only [ConnectionError] is caught: any other exception of the
    outbound call, and any exception of [json()] on an answer with status
    200, leaves the view as it is, and no error page is made of it. *)
Theorem library_exception_unhandled
    (req_base_url : string) (stdout : console) (out_req : string → reply) (inc_req : request)
    (url : string) (e : exn) :
  url ∈ calls (get_doc req_base_url stdout inc_req) →
  is_custom_error e = false →
  (out_req url = Raises e ∧ e ≠ ConnectionError) ∨ out_req url = Response 200 (Raise e) →
  run out_req (get_doc req_base_url stdout inc_req) = Raise e ∧
  serve req_base_url stdout out_req inc_req = Raise e.
Proof.
  intros Hurl He Hreply.
  assert (run out_req (get_doc req_base_url stdout inc_req) = Raise e) as Hrun.
  { destruct Hreply as [[Hreply Hne] | Hreply].
    - destruct (get_doc_calls _ _ _ _ Hurl) as (lang & _ & Hdoc).
      rewrite Hdoc. cbn [run]. rewrite Hreply.
      destruct e; try reflexivity. contradiction.
    - rewrite (run_status_200 _ _ _ _ _ _ Hurl Hreply). reflexivity. }
  split; [exact Hrun|]. unfold serve. rewrite Hrun.
  destruct e; try reflexivity. discriminate He.
Qed.

Lemma library_exception_unhandled_witness :
  serve "https://dms/api" utf8_console (λ _, Raises RequestException) ru_request
  = Raise RequestException.
Proof.
  apply (library_exception_unhandled "https://dms/api" utf8_console (λ _, Raises RequestException)
           ru_request "https://dms/api?type=Invoice&ref=A/B" RequestException).
  - apply list_elem_of_singleton. reflexivity.
  - reflexivity.
  - left. split; [reflexivity|discriminate].
Defined.

(** X19.  When the upstream answers 200 with a payload that the mapper
    accepts, the answer is the main page with the mapped data and status
    200, whatever the locale of the request. *)
Theorem serve_main_page
    (req_base_url : string) (stdout : console) (out_req : string → reply) (inc_req : request)
    (url : string) (payload : value) (data : list (key * value)) :
  url ∈ calls (get_doc req_base_url stdout inc_req) →
  out_req url = Response 200 (Ok payload) →
  build_data stdout payload = Ok data →
  serve req_base_url stdout out_req inc_req
  = Ok {| template := "main_page.html"; context := data; status := 200 |}.
Proof.
  intros Hurl Hreply Hdata. unfold serve.
  rewrite (run_status_200 _ _ _ _ _ _ Hurl Hreply).
  cbn [mbind res_bind]. rewrite Hdata. reflexivity.
Qed.

Lemma serve_main_page_witness :
  serve "https://dms/api" utf8_console (λ _, Response 200 (Ok signed_document)) fr_request
  = Ok {| template := "main_page.html"; context := signed_document_data; status := 200 |}.
Proof.
  apply (serve_main_page "https://dms/api" utf8_console (λ _, Response 200 (Ok signed_document))
           fr_request "https://dms/api?type=Invoice&ref=123" signed_document).
  - apply list_elem_of_singleton. reflexivity.
  - reflexivity.
  - vm_compute. reflexivity.
Defined.

(** X20.  Every answer of the application is either the main page with
    status 200 or the error page with another status, and on the error
    page the error code is the status, the locale is the request's and the
    message is the lookup's for that code and locale, as long as the
    [requests] library does not raise the application's own exception. *)
Theorem serve_response_invariant
    (req_base_url : string) (stdout : console) (out_req : string → reply) (inc_req : request)
    (resp : response) :
  (∀ url, library_reply (out_req url)) →
  serve req_base_url stdout out_req inc_req = Ok resp →
  (template resp = "main_page.html" ∧ status resp = 200) ∨
  (template resp = "error_page.html" ∧ status resp ≠ 200 ∧
   ∃ lang message,
     preferred_language inc_req = Ok lang ∧
     get_error_messages (status resp) lang = Ok message ∧
     resp = handle_custom_error (status resp) message lang (status resp)).
Proof.
  intros Hlib. unfold serve, get_doc.
  destruct (preferred_language inc_req) as [lang|e] eqn:Hlang;
    [|destruct (preferred_language_total inc_req) as [? ?]; congruence].
  assert (∀ code, code ≠ 200 →
            (message ← get_error_messages code lang;
             @Raise response (CustomError code message lang code))
            = Raise (CustomError code (default "en" (table_of code !! lang)) lang code))
    as Herror by (intros; rewrite get_error_messages_eq; reflexivity).
  assert (∀ code, code ≠ 200 →
            Ok (handle_custom_error code (default "en" (table_of code !! lang)) lang code)
            = Ok resp →
            (template resp = "main_page.html" ∧ status resp = 200) ∨
            (template resp = "error_page.html" ∧ status resp ≠ 200 ∧
             ∃ lang' message,
               Ok lang = Ok lang' ∧
               get_error_messages (status resp) lang' = Ok message ∧
               resp = handle_custom_error (status resp) message lang' (status resp)))
    as Hpage.
  { intros code Hcode [= <-]. right. cbn [template status handle_custom_error].
    split; [reflexivity|]. split; [exact Hcode|].
    exists lang, (default "en" (table_of code !! lang)).
    split; [reflexivity|]. split; [apply get_error_messages_eq|reflexivity]. }
  destruct (falsy _ || falsy _).
  - cbv zeta. cbn [run]. rewrite Herror by discriminate. apply Hpage. discriminate.
  - cbn [run]. specialize (Hlib (req_base_url +:+ "?type=" +:+
      quote (default "" (args inc_req !! "type")) +:+ "&ref=" +:+
      quote (default "" (args inc_req !! "ref")))).
    destruct (out_req _) as [e|status_code json]; cbn [from_reply].
    + destruct e; try discriminate; cbn [library_reply is_custom_error] in Hlib;
        try discriminate Hlib.
      cbv zeta. rewrite Herror by discriminate. apply Hpage. discriminate.
    + unfold from_response. case_bool_decide as Hcode.
      * rewrite Herror by congruence. apply Hpage. congruence.
      * destruct json as [request_data|e]; cbn [mbind res_bind].
        -- destruct (build_data stdout request_data) as [data|e] eqn:Hdata; cbn [mbind res_bind].
           ++ intros [= <-]. left. split; reflexivity.
           ++ pose proof (build_data_raises_not_custom _ _ _ Hdata) as He.
              destruct e; discriminate.
        -- cbn [library_reply] in Hlib. destruct e; discriminate.
Qed.

Lemma serve_response_invariant_witness :
  template (handle_custom_error 404 "Документ не найден" "ru" 404) = "main_page.html" ∧
  status (handle_custom_error 404 "Документ не найден" "ru" 404) = 200 ∨
  template (handle_custom_error 404 "Документ не найден" "ru" 404) = "error_page.html" ∧
  status (handle_custom_error 404 "Документ не найден" "ru" 404) ≠ 200 ∧
  ∃ lang message,
    preferred_language ru_request = Ok lang ∧
    get_error_messages (status (handle_custom_error 404 "Документ не найден" "ru" 404)) lang
    = Ok message ∧
    handle_custom_error 404 "Документ не найден" "ru" 404
    = handle_custom_error (status (handle_custom_error 404 "Документ не найден" "ru" 404))
        message lang (status (handle_custom_error 404 "Документ не найден" "ru" 404)).
Proof.
  apply (serve_response_invariant "https://dms/api" utf8_console
           (λ _, Response 404 (Raise JSONDecodeError)) ru_request).
  - intros url. reflexivity.
  - reflexivity.
Defined.
